(** * verify_evidence.py: evidence submission and token interpretation

    A shallow embedding of [src/verify/verify_evidence.py] and of the
    properties its specification states about it.

    The script reads [evidence.json], posts the evidence to the attestation
    service, and on HTTP 200 decodes the returned three-segment token,
    prints a summary and writes [jwt_payload.json] and [jwt_token.txt].

    Modelling conventions.
    - A run is a computation in a state-and-exception monad.  The state is
      the console transcript, the files of the working directory and the
      list of HTTP requests issued so far.  [SystemExit] is an outcome of
      its own, as it is not an [Exception] in Python.
    - The working directory is writable and [evidence.json], when present,
      is readable: [open] fails only with [FileNotFoundError].
    - The functions of the Python library whose result depends on a text
      format the script does not look into ([json.loads], [json.dumps],
      [bytes.decode]) are the methods of the class [PyLib].  The attestation
      service is a function from requests to responses.
    - Two more methods of [PyLib] say where the library gives up on a value
      [json.loads] has returned: the dump for the console inside
      [decode_jwt], which raises on the deepest values the parser accepts,
      and the [print] of a decoded value, which raises on a string the
      standard output cannot encode.  The script catches both.
    - [base64.urlsafe_b64decode] is written out after [binascii.a2b_base64]
      of CPython 3.11 in its default, non-strict mode, because the padding
      the script appends is only meaningful against that decoder.
    - The module [Demo] gives a small library and a few services and
      directories, on which the claims are evaluated at the end; the
      modules [Deep] and [Surrogate] give libraries that give up as CPython
      does. *)

From Stdlib Require Import ZArith String Ascii List Bool Lia.
From stdpp Require Import base gmap strings list.

Open Scope string_scope.
Open Scope list_scope.
Open Scope Z_scope.

(** ** Python values *)

(** The exceptions the script can meet, all subclasses of [Exception]. *)
Inductive exn : Type :=
  | FileNotFoundError
  | KeyError (key : string)
  | TypeError
  | AttributeError
  | ValueError
  | BinasciiError
  | UnicodeDecodeError
  | JSONDecodeError
  | RecursionError
  | UnicodeEncodeError
  | RequestException
  | OtherException.

(** The result of an expression that may raise. *)
Inductive result (A : Type) : Type :=
  | Ok (a : A)
  | Err (e : exn).
Arguments Ok {A} a.
Arguments Err {A} e.

Definition rbind {A B : Type} (r : result A) (k : A → result B) : result B :=
  match r with
  | Ok a => k a
  | Err e => Err e
  end.

Declare Scope result_scope.
Delimit Scope result_scope with R.
Bind Scope result_scope with result.
Arguments rbind {A B} r%_R k%_R.
Notation "x ← y ; z" := (rbind y (λ x, z))
  (at level 20, y at level 100, z at level 200, only parsing) : result_scope.

(** What [json.loads] returns: [None], [bool], [int], [float] (kept as its
    binary64 bit pattern), [str], [list], and [dict] in insertion order. *)
#[warnings="-register-all"]
Inductive json : Type :=
  | JNull
  | JBool (b : bool)
  | JInt (n : Z)
  | JFloat (bits : Z)
  | JStr (s : string)
  | JList (l : list json)
  | JDict (d : list (string * json)).

(** ** Base64 *)

Module Base64.

(** Characters are handled by their code, as the C decoder does. *)
Definition code (c : ascii) : Z := Z.of_N (N_of_ascii c).
Definition chr (z : Z) : ascii := ascii_of_N (Z.to_N z).

Definition BASE64_PAD : Z := 61.

(** [table_a2b_base64]: the value of an alphabet character, and the table's
    [-1] read as an [unsigned char] for every other character. *)
Definition table_a2b_base64 (c : Z) : Z :=
  if (65 <=? c) && (c <=? 90) then c - 65
  else if (97 <=? c) && (c <=? 122) then c - 71
  else if (48 <=? c) && (c <=? 57) then c + 4
  else if c =? 43 then 62
  else if c =? 47 then 63
  else 255.

(** The loop of [binascii.a2b_base64] with [strict_mode = 0].  [quad_pos],
    [leftchar] and [pads] are the C locals; [bin] is the output written so
    far.  Reaching a complete pad sequence is the C code's [goto done]. *)
Fixpoint a2b_loop (data : list Z) (quad_pos : Z) (leftchar : Z) (pads : Z)
    (bin : list Z) : result (list Z) :=
  match data with
  | [] =>
      if quad_pos =? 0 then Ok bin else Err BinasciiError
  | this_ch :: rest =>
      if this_ch =? BASE64_PAD then
        if 2 <=? quad_pos then
          if 4 <=? quad_pos + (pads + 1) then Ok bin
          else a2b_loop rest quad_pos leftchar (pads + 1) bin
        else a2b_loop rest quad_pos leftchar pads bin
      else
        let this_ch := table_a2b_base64 this_ch in
        if 64 <=? this_ch then a2b_loop rest quad_pos leftchar pads bin
        else
          if quad_pos =? 0 then
            a2b_loop rest 1 this_ch 0 bin
          else if quad_pos =? 1 then
            a2b_loop rest 2 (Z.land this_ch 15) 0
              (bin ++ [Z.land (Z.lor (Z.shiftl leftchar 2) (Z.shiftr this_ch 4)) 255])
          else if quad_pos =? 2 then
            a2b_loop rest 3 (Z.land this_ch 3) 0
              (bin ++ [Z.land (Z.lor (Z.shiftl leftchar 4) (Z.shiftr this_ch 2)) 255])
          else
            a2b_loop rest 0 0 0
              (bin ++ [Z.land (Z.lor (Z.shiftl leftchar 6) this_ch) 255])
  end.

Definition a2b_base64 (data : list Z) : result (list Z) :=
  a2b_loop data 0 0 0 [].

Definition codes (s : string) : list Z := code <$> list_ascii_of_string s.

(** [_bytes_from_decode_data] on a [str]: [s.encode('ascii')], a
    [ValueError] when a character is not ASCII. *)
Definition bytes_from_decode_data (s : string) : result (list Z) :=
  let cs := codes s in
  if forallb (λ c, c <? 128) cs then Ok cs else Err ValueError.

(** [_urlsafe_decode_translation]: [-] to [+] and [_] to [/]. *)
Definition urlsafe_decode_translation (c : Z) : Z :=
  if c =? 45 then 43 else if c =? 95 then 47 else c.

(** [base64.urlsafe_b64decode(s)]. *)
Definition urlsafe_b64decode (s : string) : result (list Z) :=
  rbind (bytes_from_decode_data s) (λ bs,
    a2b_base64 (urlsafe_decode_translation <$> bs)).

(** The encoder is not part of the script.  It is the base64url encoding of
    RFC 4648, section 5, which the specification's round trip starts from:
    three bytes give four characters of the URL-safe alphabet. *)
Definition urlsafe_alphabet : string :=
  "ABCDEFGHIJKLMNOPQRSTUVWXYZabcdefghijklmnopqrstuvwxyz0123456789-_".

Definition table_b2a_urlsafe (n : Z) : ascii :=
  match String.get (Z.to_nat n) urlsafe_alphabet with
  | Some c => c
  | None => "="%char
  end.

Definition sextet1 (a : Z) : Z := Z.shiftr a 2.
Definition sextet2 (a b : Z) : Z := Z.lor (Z.shiftl (Z.land a 3) 4) (Z.shiftr b 4).
Definition sextet3 (b c : Z) : Z := Z.lor (Z.shiftl (Z.land b 15) 2) (Z.shiftr c 6).
Definition sextet4 (c : Z) : Z := Z.land c 63.

(** The characters of the encoding; [pad] says whether a last group of one
    or two bytes is completed with [=]. *)
Fixpoint b64url_chars (pad : bool) (bs : list Z) : list ascii :=
  match bs with
  | [] => []
  | [a] =>
      [ table_b2a_urlsafe (sextet1 a); table_b2a_urlsafe (sextet2 a 0) ]
      ++ (if pad then [ "="%char; "="%char ] else [])
  | [a; b] =>
      [ table_b2a_urlsafe (sextet1 a); table_b2a_urlsafe (sextet2 a b);
        table_b2a_urlsafe (sextet3 b 0) ]
      ++ (if pad then [ "="%char ] else [])
  | a :: b :: c :: rest =>
      table_b2a_urlsafe (sextet1 a)
      :: table_b2a_urlsafe (sextet2 a b)
      :: table_b2a_urlsafe (sextet3 b c)
      :: table_b2a_urlsafe (sextet4 c)
      :: b64url_chars pad rest
  end.

(** With the padding, as [base64.urlsafe_b64encode] returns it. *)
Definition urlsafe_b64encode (bs : list Z) : string :=
  string_of_list_ascii (b64url_chars true bs).

(** Without the padding, as a token carries its segments (RFC 7515). *)
Definition base64url (bs : list Z) : string :=
  string_of_list_ascii (b64url_chars false bs).

End Base64.

(** ** The Python operations the script applies to decoded values *)

(** The methods of the standard library taken as given: [json.loads]
    (also behind [json.load] and [response.json()]), [json.dumps],
    [json.dumps(..., indent=2)] (also behind [json.dump(..., indent=2)])
    and [bytes.decode()].

    Two more say where the library gives up on a value that [json.loads]
    has returned.  Inside [decode_jwt], [json.dumps(v, indent=2)] raises a
    [RecursionError] on a value nested as deeply as the parser accepts
    there; [json.dump] to a file does not, and neither does the call of
    line 101, whose value [response.json()] has parsed deeper in the stack.
    And [print] of an f-string that holds a decoded value raises a
    [UnicodeEncodeError] when the value is a string the standard output
    cannot encode, such as a lone surrogate. *)
Class PyLib : Type := {
  json_loads : string → result json;
  json_dumps : json → string;
  json_dumps_indent : json → string;
  bytes_decode : list Z → result string;
  json_dumps_indent_error : json → option exn;
  print_refuses : json → option exn;
}.

(** [json.dumps(v, indent=2)] as [decode_jwt] calls it. *)
Definition dumps_indent `{!PyLib} (v : json) : result string :=
  match json_dumps_indent_error v with
  | Some e => Err e
  | None => Ok (json_dumps_indent v)
  end.

Fixpoint dict_lookup (k : string) (d : list (string * json)) : option json :=
  match d with
  | [] => None
  | (k', v) :: d' => if String.eqb k k' then Some v else dict_lookup k d'
  end.

(** [v[k]] for a string key [k]. *)
Definition py_getitem (v : json) (k : string) : result json :=
  match v with
  | JDict d =>
      match dict_lookup k d with
      | Some x => Ok x
      | None => Err (KeyError k)
      end
  | _ => Err TypeError
  end.

(** [len(v)]. *)
Definition py_len (v : json) : result Z :=
  match v with
  | JStr s => Ok (Z.of_nat (String.length s))
  | JList l => Ok (Z.of_nat (length l))
  | JDict d => Ok (Z.of_nat (length d))
  | _ => Err TypeError
  end.

Fixpoint str_contains (needle hay : string) : bool :=
  String.prefix needle hay ||
  match hay with
  | EmptyString => false
  | String _ hay' => str_contains needle hay'
  end.

(** [v == s] for a string [s]. *)
Definition py_eq_str (v : json) (s : string) : bool :=
  match v with
  | JStr t => String.eqb t s
  | _ => false
  end.

(** [k in v] for a string [k]: a key of a dict, an element of a list, a
    substring of a string; other values are not iterable. *)
Definition py_contains (k : string) (v : json) : result bool :=
  match v with
  | JDict d => Ok (bool_decide (is_Some (dict_lookup k d)))
  | JList l => Ok (existsb (λ x, py_eq_str x k) l)
  | JStr s => Ok (str_contains k s)
  | _ => Err TypeError
  end.

(** [v.get(k, default)]: only a dict has the method. *)
Definition py_get (v : json) (k : string) (default : json) : result json :=
  match v with
  | JDict d =>
      match dict_lookup k d with
      | Some x => Ok x
      | None => Ok default
      end
  | _ => Err AttributeError
  end.

Definition isinstance_dict (v : json) : bool :=
  match v with
  | JDict _ => true
  | _ => false
  end.

(** The items a [for] loop over [v] visits. *)
Definition py_iter (v : json) : result (list json) :=
  match v with
  | JList l => Ok l
  | JDict d => Ok ((λ kv, JStr kv.1) <$> d)
  | JStr s => Ok ((λ c, JStr (String c EmptyString)) <$> list_ascii_of_string s)
  | _ => Err TypeError
  end.

(** [k1 in v and k2 in v[k1]]. *)
Definition py_contains2 (k1 k2 : string) (v : json) : result bool :=
  rbind (py_contains k1 v) (λ b1,
    if b1 then rbind (py_getitem v k1) (py_contains k2) else Ok false).

(** [s.split('.')]. *)
Fixpoint split_dot (s : string) : list string :=
  match s with
  | EmptyString => [EmptyString]
  | String c s' =>
      if Ascii.eqb c "."%char then EmptyString :: split_dot s'
      else
        match split_dot s' with
        | [] => [String c EmptyString]
        | p :: ps => String c p :: ps
        end
  end.

(** A string is true when it is not empty. *)
Definition truthy (s : string) : bool :=
  negb (String.eqb s "").

Fixpoint str_repeat (c : ascii) (n : nat) : string :=
  match n with
  | O => EmptyString
  | S n' => String c (str_repeat c n')
  end.

(** ** The process: console, files, network *)

Inductive fmt_arg : Type :=
  | FInt (n : Z)
  | FVal (v : json)
  | FExn (e : exn).

(** One entry of the console transcript: a [print] of a string, a [print]
    of an f-string that ends in a formatted value, or the traceback that
    [traceback.print_exc()] writes to the error stream. *)
Inductive line : Type :=
  | Print (s : string)
  | PrintF (prefix : string) (a : fmt_arg)
  | Traceback (e : exn).

Record request : Type := Request {
  url : string;
  json_body : json;
  headers : list (string * string);
  verify : bool;
}.

Inductive post_result : Type :=
  | Response (status_code : Z) (text : string)
  | PostRaises (e : exn).

(** What a run is given: the environment variables and the service that
    answers the POST. *)
Record world : Type := World {
  environ : gmap string string;
  service : request → post_result;
}.

Record state : Type := State {
  out : list line;
  fs : gmap string string;
  posts : list request;
}.

Inductive outcome (A : Type) : Type :=
  | Ret (a : A)
  | Raise (e : exn)
  | Exit (code : Z).
Arguments Ret {A} a.
Arguments Raise {A} e.
Arguments Exit {A} code.

Definition M (A : Type) : Type := state → outcome A * state.

Definition ret {A : Type} (a : A) : M A := λ st, (Ret a, st).

Definition bind {A B : Type} (m : M A) (k : A → M B) : M B := λ st,
  match m st with
  | (Ret a, st') => k a st'
  | (Raise e, st') => (Raise e, st')
  | (Exit c, st') => (Exit c, st')
  end.

Declare Scope py_scope.
Delimit Scope py_scope with py.
Bind Scope py_scope with M.
Arguments bind {A B} m%_py k%_py.
Notation "x ← y ; z" := (bind y (λ x, z))
  (at level 20, y at level 100, z at level 200, only parsing) : py_scope.
Notation "y ;; z" := (bind y (λ _, z))
  (at level 100, z at level 200, only parsing, right associativity) : py_scope.

Definition lift {A : Type} (r : result A) : M A := λ st,
  match r with
  | Ok a => (Ret a, st)
  | Err e => (Raise e, st)
  end.

Definition emit (l : line) : M unit := λ st,
  (Ret (), {| out := out st ++ [l]; fs := fs st; posts := posts st |}).

Definition print (s : string) : M unit := emit (Print s).

(** [print] of an f-string that holds a number or an exception, whose text
    the console takes; the one for a decoded value is [print_value]. *)
Definition printf (prefix : string) (a : fmt_arg) : M unit := emit (PrintF prefix a).
Definition print_exc (e : exn) : M unit := emit (Traceback e).

Definition sys_exit {A : Type} (code : Z) : M A := λ st, (Exit code, st).

(** [with open(path, 'r') as f: f.read()]. *)
Definition open_read (path : string) : M string := λ st,
  match fs st !! path with
  | Some content => (Ret content, st)
  | None => (Raise FileNotFoundError, st)
  end.

(** [with open(path, 'w') as f: f.write(content)]. *)
Definition open_write (path content : string) : M unit := λ st,
  (Ret (), {| out := out st; fs := <[path := content]> (fs st); posts := posts st |}).

(** [requests.post(url, json=..., headers=..., verify=...)]. *)
Definition requests_post (w : world) (rq : request) : M (Z * string) := λ st,
  let st' := {| out := out st; fs := fs st; posts := posts st ++ [rq] |} in
  match service w rq with
  | Response sc body => (Ret (sc, body), st')
  | PostRaises e => (Raise e, st')
  end.

(** [try: body / except Exception as e: handler e].  A [SystemExit] passes
    through. *)
Definition try_except {A : Type} (body : M A) (handler : exn → M A) : M A := λ st,
  match body st with
  | (Raise e, st') => handler e st'
  | r => r
  end.

(** [try: body / except: handler], which also stops a [SystemExit]. *)
Definition try_bare {A : Type} (body : M A) (handler : M A) : M A := λ st,
  match body st with
  | (Ret a, st') => (Ret a, st')
  | (_, st') => handler st'
  end.

Definition when (b : bool) (m : M unit) : M unit :=
  if b then m else ret ().

(** A [for] loop whose body updates one local variable. *)
Fixpoint for_each {A S : Type} (items : list A) (s : S) (body : A → S → M S) : M S :=
  match items with
  | [] => ret s
  | x :: items' => bind (body x s) (λ s', for_each items' s' body)
  end.

Definition nl : string := String (ascii_of_nat 10) EmptyString.

(** ** The script *)

Section Script.

Context `{!PyLib}.

Local Open Scope py_scope.

(** [print(f"...{v}")] for a decoded value [v]. *)
Definition print_value (prefix : string) (v : json) : M unit :=
  match print_refuses v with
  | Some e => lift (Err e)
  | None => emit (PrintF prefix (FVal v))
  end.

(** Lines 126-127 and 137-138: [seg += '=' * (4 - len(seg) % 4)]. *)
Definition pad_count (len : Z) : Z := 4 - len mod 4.

Definition add_padding (seg : string) : string :=
  seg +:+ str_repeat "="%char (Z.to_nat (pad_count (Z.of_nat (String.length seg)))).

(** Lines 126-129 for the header and 137-140 for the payload: pad, decode
    as base64url, decode the bytes as text, parse the text as JSON. *)
Definition decode_segment (seg : string) : result json :=
  let b64 := add_padding seg in
  (bs ← Base64.urlsafe_b64decode b64;
   text ← bytes_decode bs;
   json_loads text)%R.

(** Lines 181-186: the body of the loop that looks for [start_app]. *)
Definition start_app_step (log : json) (found_start_app : bool) : M bool :=
  has ← lift (py_contains2 "details" "data" log);
  if has then
    data ← lift (details ← py_getitem log "details"; py_getitem details "data")%R;
    is_start ← lift (if isinstance_dict data
                     then op ← py_get data "operation" JNull;
                          Ok (py_eq_str op "start_app")
                     else Ok false)%R;
    if is_start then
      details ← lift (py_getitem log "details");
      text ← lift (dumps_indent details);
      print text;;
      ret true
    else ret found_start_app
  else ret found_start_app.

(** Lines 195-202: the body of the loop that looks for Cryptpilot entries. *)
Definition cryptpilot_step (log : json) (found_cryptpilot : bool) : M bool :=
  has ← lift (py_contains2 "details" "data" log);
  if has then
    data ← lift (details ← py_getitem log "details"; py_getitem details "data")%R;
    is_cp ← lift (if isinstance_dict data
                  then dom ← py_get data "domain" JNull;
                       Ok (py_eq_str dom "cryptpilot.alibabacloud.com")
                  else Ok false)%R;
    if is_cp then
      op ← lift (py_get data "operation" (JStr "N/A"));
      print_value "Operation: " op;;
      content ← lift (py_get data "content" (JStr "N/A"));
      print_value "Content: " content;;
      print "";;
      ret true
    else ret found_cryptpilot
  else ret found_cryptpilot.

Definition uefi_event_logs (evidence : json) : result (list json) :=
  (tdx ← py_getitem evidence "tdx";
   logs ← py_getitem tdx "uefi_event_logs";
   py_iter logs)%R.

(** Lines 158-205: the body of the inner [try] of [decode_jwt]. *)
Definition extract_summary (payload : json) (verbose : bool) : M unit :=
  cpu0 ← lift (submods ← py_getitem payload "submods"; py_getitem submods "cpu0")%R;
  verification_status ← lift (py_getitem cpu0 "ear.status");
  print_value "verification status: " verification_status;;
  has_vector ← lift (py_contains "ear.trustworthiness-vector" cpu0);
  when has_vector (
    trust_vector ← lift (py_getitem cpu0 "ear.trustworthiness-vector");
    print (nl +:+ "trustworthiness vector:");;
    configuration ← lift (py_get trust_vector "configuration" (JStr "N/A"));
    print_value "  - configuration: " configuration;;
    executables ← lift (py_get trust_vector "executables" (JStr "N/A"));
    print_value "  - executables: " executables;;
    file_system ← lift (py_get trust_vector "file-system" (JStr "N/A"));
    print_value "  - file-system: " file_system);;
  has_evidence ← lift (py_contains "ear.veraison.annotated-evidence" cpu0);
  when has_evidence (
    evidence ← lift (py_getitem cpu0 "ear.veraison.annotated-evidence");
    has_quote ← lift (py_contains2 "tdx" "quote" evidence);
    when has_quote (
      report_data ← lift (tdx ← py_getitem evidence "tdx";
                          quote ← py_getitem tdx "quote";
                          body ← py_getitem quote "body";
                          py_get body "report_data" (JStr "N/A"))%R;
      print_value (nl +:+ "Report Data: ") report_data);;
    has_logs ← lift (py_contains2 "tdx" "uefi_event_logs" evidence);
    when has_logs (
      print (nl +:+ "========== Start App logs ==========");;
      logs ← lift (uefi_event_logs evidence);
      found_start_app ← for_each logs false start_app_step;
      when (negb found_start_app) (print "start_app log not found"));;
    show_cryptpilot ← (if verbose
                       then lift (py_contains2 "tdx" "uefi_event_logs" evidence)
                       else ret false);
    when show_cryptpilot (
      print (nl +:+ "========== Cryptpilot logs ==========");;
      logs ← lift (uefi_event_logs evidence);
      found_cryptpilot ← for_each logs false cryptpilot_step;
      when (negb found_cryptpilot) (print "cryptpilot log not found"))).

(** Lines 117-218. *)
Definition decode_jwt (jwt_token : string) (verbose : bool) : M unit :=
  try_except (
    let parts := split_dot jwt_token in
    if negb (Nat.eqb (length parts) 3) then
      print "✗ invalid JWT format"
    else
      header ← lift (decode_segment (nth 0 parts ""));
      when verbose (
        print "========== JWT Header ==========";;
        text ← lift (dumps_indent header);
        print text;;
        print "");;
      payload ← lift (decode_segment (nth 1 parts ""));
      when verbose (
        print "========== JWT Payload (full) ==========";;
        text ← lift (dumps_indent payload);
        print text;;
        print "");;
      open_write "jwt_payload.json" (json_dumps_indent payload);;
      when verbose (
        print "✓ JWT payload is saved to jwt_payload.json";;
        print "");;
      print "========== verification result ==========";;
      try_except (extract_summary payload verbose)
        (λ e, match e with
              | KeyError _ => printf "✗ JWT payload missing expected fields: " (FExn e)
              | _ => printf "✗ error extracting information: " (FExn e);;
                     when verbose (print_exc e)
              end))
    (λ e, printf "✗ failed to decode JWT: " (FExn e);;
          print_exc e).

(** [os.environ.get(name, default)]. *)
Definition environ_get (w : world) (name default : string) : string :=
  match environ w !! name with
  | Some v => v
  | None => default
  end.

(** Lines 66-74: the dict built from the identity fields that are set. *)
Definition aa_instance_info (image_id instance_id instance_name owner_account_id : string)
    : list (string * json) :=
  (if truthy image_id then [("image_id", JStr image_id)] else [])
  ++ (if truthy instance_id then [("instance_id", JStr instance_id)] else [])
  ++ (if truthy instance_name then [("instance_name", JStr instance_name)] else [])
  ++ (if truthy owner_account_id then [("owner_account_id", JStr owner_account_id)] else []).

(** Lines 13-115. *)
Definition verify_evidence (w : world) (verbose : bool) : M unit :=
  let gateway_host := "localhost" in
  let port := "8081" in
  let evidence_file := "evidence.json" in
  let policy_id := environ_get w "POLICY_ID" "tapp" in
  let image_id := environ_get w "IMAGE_ID" "" in
  let instance_id := environ_get w "INSTANCE_ID" "" in
  let instance_name := environ_get w "INSTANCE_NAME" "" in
  let owner_account_id := environ_get w "OWNER_ACCOUNT_ID" "" in
  let url := "http://" +:+ gateway_host +:+ ":" +:+ port
             +:+ "/api/attestation-service/attestation" in
  print ("read evidence file: " +:+ evidence_file +:+ "...");;
  evidence_body ← try_except (
      content ← open_read evidence_file;
      evidence_data ← lift (json_loads content);
      lift (py_getitem evidence_data "evidence"))
    (λ e, match e with
          | FileNotFoundError =>
              print ("✗ " +:+ evidence_file +:+ " file not found!");;
              sys_exit 1
          | KeyError _ =>
              print "✗ 'evidence' field not found in JSON!";;
              sys_exit 1
          | _ =>
              printf "✗ failed to load evidence: " (FExn e);;
              print_exc e;;
              sys_exit 1
          end);
  evidence_len ← lift (py_len evidence_body);
  printf "  - Evidence base64 length: " (FInt evidence_len);;
  print ("  - use Policy ID: " +:+ policy_id);;
  let payload :=
    JDict [ ("verification_requests",
             JList [ JDict [ ("tee", JStr "tdx"); ("evidence", evidence_body) ] ]);
            ("policy_ids", JList [ JStr policy_id ]) ] in
  let headers0 := [ ("Content-Type", "application/json") ] in
  headers ← (if truthy image_id || truthy instance_id
                || truthy instance_name || truthy owner_account_id
             then
               let info := JDict (aa_instance_info image_id instance_id
                                    instance_name owner_account_id) in
               print ("  - use AAInstanceInfo: " +:+ json_dumps info);;
               ret (headers0 ++ [ ("AAInstanceInfo", json_dumps info) ])
             else ret headers0);
  try_except (
    print (nl +:+ "send verification request...");;
    response ← requests_post w (Request url payload headers false);
    printf "HTTP status code: " (FInt response.1);;
    if response.1 =? 200 then
      let jwt_token := response.2 in
      print "✓ TDX quote verification succeeded!";;
      print "";;
      decode_jwt jwt_token verbose;;
      open_write "jwt_token.txt" jwt_token;;
      print (nl +:+ "✓ JWT token is saved to jwt_token.txt")
    else
      print "✗ TDX quote verification failed";;
      try_bare (
        error_response ← lift (json_loads response.2);
        print "error response:";;
        print (json_dumps_indent error_response))
        (print ("error response: " +:+ response.2));;
      sys_exit 1)
    (λ e, match e with
          | RequestException =>
              printf "✗ request error: " (FExn e);;
              print_exc e;;
              sys_exit 1
          | _ =>
              printf "✗ error: " (FExn e);;
              print_exc e;;
              sys_exit 1
          end).

(** Lines 220-243, after [argparse] has read the [-v] flag. *)
Definition main (w : world) (verbose : bool) : M unit :=
  verify_evidence w verbose.

(** A run of the script in a working directory holding [files]. *)
Definition run (w : world) (verbose : bool) (files : gmap string string)
    : outcome unit * state :=
  main w verbose {| out := []; fs := files; posts := [] |}.

End Script.

(** The exit status of the interpreter: 0 after a normal return, the
    argument of [sys.exit], and 1 after an uncaught exception. *)
Definition exit_status {A : Type} (o : outcome A) : Z :=
  match o with
  | Ret _ => 0
  | Raise _ => 1
  | Exit code => code
  end.

(** ** A concrete library and service for the examples *)

Module Demo.

Definition ascii_bytes (s : string) : list Z := Base64.codes s.

Definition dq : string := String (ascii_of_nat 34) EmptyString.

(** The text [{"evidence": ""}]. *)
Definition empty_evidence_text : string :=
  "{" +:+ dq +:+ "evidence" +:+ dq +:+ ": " +:+ dq +:+ dq +:+ "}".

(** The text [{"error": "denied"}]. *)
Definition denied_text : string :=
  "{" +:+ dq +:+ "error" +:+ dq +:+ ": " +:+ dq +:+ "denied" +:+ dq +:+ "}".

(** [json.loads] on the texts the examples use; every other text is
    rejected here. *)
Definition loads (s : string) : result json :=
  if String.eqb s "{}" then Ok (JDict [])
  else if String.eqb s "[1,2]" then Ok (JList [JInt 1; JInt 2])
  else if String.eqb s empty_evidence_text then Ok (JDict [("evidence", JStr "")])
  else if String.eqb s denied_text then Ok (JDict [("error", JStr "denied")])
  else Err JSONDecodeError.

(** [bytes.decode()] on ASCII bytes, where UTF-8 is the identity; other
    bytes are rejected here. *)
Definition decode (bs : list Z) : result string :=
  if forallb (λ b, (0 <=? b) && (b <? 128)) bs
  then Ok (string_of_list_ascii (Base64.chr <$> bs))
  else Err UnicodeDecodeError.

(** [json.dumps] on dicts of strings without escapes, which is all the
    examples serialise; it also stands for the indented form, whose layout
    no statement depends on. *)
Fixpoint dumps_items (d : list (string * json)) : string :=
  match d with
  | [] => ""
  | (k, v) :: d' =>
      dq +:+ k +:+ dq +:+ ": "
      +:+ match v with JStr s => dq +:+ s +:+ dq | _ => "null" end
      +:+ match d' with [] => "" | _ => ", " +:+ dumps_items d' end
  end.

Definition dumps (v : json) : string :=
  match v with
  | JDict d => "{" +:+ dumps_items d +:+ "}"
  | JStr s => dq +:+ s +:+ dq
  | _ => "null"
  end.

Definition lib : PyLib := {|
  json_loads := loads;
  json_dumps := dumps;
  json_dumps_indent := dumps;
  bytes_decode := decode;
  json_dumps_indent_error := λ _, None;
  print_refuses := λ _, None;
|}.

(** A directory whose evidence file holds [{"evidence": ""}], one whose
    evidence file holds [{}], and one without evidence file. *)
Definition empty_evidence_dir : gmap string string :=
  {[ "evidence.json" := empty_evidence_text ]}.
Definition no_key_dir : gmap string string :=
  {[ "evidence.json" := "{}" ]}.
Definition empty_dir : gmap string string := ∅.

(** A service that answers every request with a 200 and the given body,
    and one that answers with a 403 and a JSON error, for an instance whose
    image id is set. *)
Definition accepting (body : string) : world :=
  World ∅ (λ _, Response 200 body).
Definition rejecting : world :=
  World {[ "IMAGE_ID" := "img" ]} (λ _, Response 403 denied_text).

End Demo.

(** ** Helper notions for the proofs *)

Definition add_out (st : state) (ls : list line) : state :=
  {| out := out st ++ ls; fs := fs st; posts := posts st |}.

(** A computation that only prints: it leaves the files and the requests
    as they are and does not end the process. *)
Definition prints_only {A : Type} (m : M A) : Prop :=
  ∀ st, ∃ o ls, m st = (o, add_out st ls) ∧ ∀ c, o ≠ Exit c.

(** Whether the dump of [v] for the console, made in verbose mode only,
    raises. *)
Definition dump_fails `{!PyLib} (verbose : bool) (v : json) : bool :=
  verbose && match json_dumps_indent_error v with Some _ => true | None => false end.

(** The payload [decode_jwt] gets to write: that of a token of three
    segments whose header and payload decode and, in verbose mode, can be
    dumped for the console. *)
Definition written_payload `{!PyLib} (jwt_token : string) (verbose : bool)
    : option json :=
  match split_dot jwt_token with
  | [header_b64; payload_b64; _] =>
      match decode_segment header_b64 with
      | Ok header =>
          if dump_fails verbose header then None
          else
            match decode_segment payload_b64 with
            | Ok payload => if dump_fails verbose payload then None else Some payload
            | Err _ => None
            end
      | Err _ => None
      end
  | _ => None
  end.

(** The files [decode_jwt] leaves. *)
Definition decode_jwt_files `{!PyLib} (jwt_token : string) (verbose : bool)
    (files : gmap string string) : gmap string string :=
  match written_payload jwt_token verbose with
  | Some payload => <["jwt_payload.json" := json_dumps_indent payload]> files
  | None => files
  end.

(** The body of the [try] of lines 31-34, on the files of the directory. *)
Definition load_evidence `{!PyLib} (files : gmap string string) : result json :=
  match files !! "evidence.json" with
  | Some content =>
      (evidence_data ← json_loads content;
       py_getitem evidence_data "evidence")%R
  | None => Err FileNotFoundError
  end.

(** What the handlers of lines 35-45 print. *)
Definition loader_diagnostic (e : exn) : list line :=
  match e with
  | FileNotFoundError => [Print "✗ evidence.json file not found!"]
  | KeyError _ => [Print "✗ 'evidence' field not found in JSON!"]
  | _ => [PrintF "✗ failed to load evidence: " (FExn e); Traceback e]
  end.

(** The identity fields as the script reads them from the environment. *)
Definition identity_fields (w : world) : list (string * string) :=
  [ ("image_id", environ_get w "IMAGE_ID" "");
    ("instance_id", environ_get w "INSTANCE_ID" "");
    ("instance_name", environ_get w "INSTANCE_NAME" "");
    ("owner_account_id", environ_get w "OWNER_ACCOUNT_ID" "") ].

(** The request of line 80 for a loaded evidence value. *)
Definition the_request `{!PyLib} (w : world) (evidence_body : json) : request :=
  let image_id := environ_get w "IMAGE_ID" "" in
  let instance_id := environ_get w "INSTANCE_ID" "" in
  let instance_name := environ_get w "INSTANCE_NAME" "" in
  let owner_account_id := environ_get w "OWNER_ACCOUNT_ID" "" in
  {| url := "http://localhost:8081/api/attestation-service/attestation";
     json_body :=
       JDict [ ("verification_requests",
                JList [ JDict [ ("tee", JStr "tdx"); ("evidence", evidence_body) ] ]);
               ("policy_ids", JList [ JStr (environ_get w "POLICY_ID" "tapp") ]) ];
     headers :=
       ("Content-Type", "application/json")
       :: (if truthy image_id || truthy instance_id
              || truthy instance_name || truthy owner_account_id
           then [ ("AAInstanceInfo",
                   json_dumps (JDict (aa_instance_info image_id instance_id
                                        instance_name owner_account_id))) ]
           else []);
     verify := false |}.

(** What lines 30-76 print when the evidence is loaded. *)
Definition preamble `{!PyLib} (w : world) (evidence_len : Z) : list line :=
  let image_id := environ_get w "IMAGE_ID" "" in
  let instance_id := environ_get w "INSTANCE_ID" "" in
  let instance_name := environ_get w "INSTANCE_NAME" "" in
  let owner_account_id := environ_get w "OWNER_ACCOUNT_ID" "" in
  [ Print "read evidence file: evidence.json...";
    PrintF "  - Evidence base64 length: " (FInt evidence_len);
    Print ("  - use Policy ID: " +:+ environ_get w "POLICY_ID" "tapp") ]
  ++ (if truthy image_id || truthy instance_id
         || truthy instance_name || truthy owner_account_id
      then [ Print ("  - use AAInstanceInfo: "
                    +:+ json_dumps (JDict (aa_instance_info image_id instance_id
                                             instance_name owner_account_id))) ]
      else []).

(** What the handlers of lines 106-115 print. *)
Definition post_failure_lines (e : exn) : list line :=
  match e with
  | RequestException => [PrintF "✗ request error: " (FExn e); Traceback e]
  | _ => [PrintF "✗ error: " (FExn e); Traceback e]
  end.

(** What lines 98-103 print for the body of a response that is not a 200. *)
Definition error_lines `{!PyLib} (body : string) : list line :=
  match json_loads body with
  | Ok error_response => [Print "error response:"; Print (json_dumps_indent error_response)]
  | Err _ => [Print ("error response: " +:+ body)]
  end.

(** The exit, the files and the requests a run ends with. *)
Definition run_summary `{!PyLib} (w : world) (verbose : bool)
    (files : gmap string string)
    : outcome unit * gmap string string * list request :=
  match load_evidence files with
  | Err _ => (Exit 1, files, [])
  | Ok evidence_body =>
      match py_len evidence_body with
      | Err e => (Raise e, files, [])
      | Ok _ =>
          let rq := the_request w evidence_body in
          match service w rq with
          | PostRaises _ => (Exit 1, files, [rq])
          | Response sc body =>
              if sc =? 200
              then (Ret (),
                    <["jwt_token.txt" := body]> (decode_jwt_files body verbose files),
                    [rq])
              else (Exit 1, files, [rq])
          end
      end
  end.

(** The path [submods.cpu0.ear.status] of lines 158-159. *)
Definition lookup_status (payload : json) : result json :=
  (submods ← py_getitem payload "submods";
   cpu0 ← py_getitem submods "cpu0";
   py_getitem cpu0 "ear.status")%R.

(** What the handlers of lines 207-213 print. *)
Definition summary_diagnostic (e : exn) (verbose : bool) : list line :=
  match e with
  | KeyError _ => [PrintF "✗ JWT payload missing expected fields: " (FExn e)]
  | _ => PrintF "✗ error extracting information: " (FExn e)
         :: (if verbose then [Traceback e] else [])
  end.

(** The identity fields that are not empty, as JSON strings, in the order
    of the script. *)
Definition nonempty_fields (w : world) : list (string * json) :=
  (λ kv, (kv.1, JStr kv.2)) <$> List.filter (λ kv, truthy kv.2) (identity_fields w).

Definition st0 : state := {| out := []; fs := ∅; posts := [] |}.

Definition is_byte (b : Z) : Prop := 0 ≤ b < 256.

(** The check that the character of the sextet [n] is an ASCII character
    other than the pad, and that after the translation the decoding table
    gives [n] back. *)
Definition alphabet_ok (n : Z) : bool :=
  let c := Base64.code (Base64.table_b2a_urlsafe n) in
  let c' := Base64.urlsafe_decode_translation c in
  (c <? 128) && negb (c' =? Base64.BASE64_PAD) && (Base64.table_a2b_base64 c' =? n).

(** The checks of the bit identities behind one group of three bytes. *)
Definition group12_ok (a b : Z) : bool :=
  let s1 := Base64.sextet1 a in
  let s2 := Base64.sextet2 a b in
  (0 <=? s1) && (s1 <? 64) && (0 <=? s2) && (s2 <? 64)
  && (Z.land (Z.lor (Z.shiftl s1 2) (Z.shiftr s2 4)) 255 =? a)
  && (Z.land s2 15 =? Z.shiftr b 4).

Definition group34_ok (b c : Z) : bool :=
  let s3 := Base64.sextet3 b c in
  let s4 := Base64.sextet4 c in
  (0 <=? s3) && (s3 <? 64) && (0 <=? s4) && (s4 <? 64)
  && (Z.land (Z.lor (Z.shiftl (Z.shiftr b 4) 4) (Z.shiftr s3 2)) 255 =? b)
  && (Z.land (Z.lor (Z.shiftl (Z.land s3 3) 6) s4) 255 =? c).

(** The Base64.code the decoding loop reads for the sextet [n]. *)
Definition wire_char (n : Z) : Z :=
  Base64.urlsafe_decode_translation (Base64.code (Base64.table_b2a_urlsafe n)).

Definition wire (pad : bool) (bs : list Z) : list Z :=
  Base64.urlsafe_decode_translation <$> (Base64.code <$> Base64.b64url_chars pad bs).

(** ** Notions for the further properties *)

(** The number of dots of a string. *)
Fixpoint count_dots (s : string) : nat :=
  match s with
  | EmptyString => 0%nat
  | String c s' => ((if Ascii.eqb c "."%char then 1 else 0) + count_dots s')%nat
  end.

(** A log entry that the loops of lines 181-186 and 195-202 read without
    an exception: a dict whose [details], when it has some, is a dict. *)
Definition plain_entry (log : json) : bool :=
  match log with
  | JDict l =>
      match dict_lookup "details" l with
      | None | Some (JDict _) => true
      | Some _ => false
      end
  | _ => false
  end.

(** [log['details']] and [log['details']['data']] of such an entry. *)
Definition entry_details (log : json) : json :=
  match log with
  | JDict l => default JNull (dict_lookup "details" l)
  | _ => JNull
  end.

Definition entry_data (log : json) : option json :=
  match entry_details log with
  | JDict d => dict_lookup "data" d
  | _ => None
  end.

(** The entries the two loops select. *)
Definition is_start_app (log : json) : bool :=
  match entry_data log with
  | Some (JDict d) => py_eq_str (default JNull (dict_lookup "operation" d)) "start_app"
  | _ => false
  end.

Definition is_cryptpilot (log : json) : bool :=
  match entry_data log with
  | Some (JDict d) =>
      py_eq_str (default JNull (dict_lookup "domain" d)) "cryptpilot.alibabacloud.com"
  | _ => false
  end.

(** What lines 199-201 print for a selected entry. *)
Definition cryptpilot_lines (log : json) : list line :=
  match entry_data log with
  | Some (JDict d) =>
      [ PrintF "Operation: " (FVal (default (JStr "N/A") (dict_lookup "operation" d)));
        PrintF "Content: " (FVal (default (JStr "N/A") (dict_lookup "content" d)));
        Print "" ]
  | _ => []
  end.

(** The values lines 199-200 print for a selected entry. *)
Definition cryptpilot_values (log : json) : list json :=
  match entry_data log with
  | Some (JDict d) =>
      [ default (JStr "N/A") (dict_lookup "operation" d);
        default (JStr "N/A") (dict_lookup "content" d) ]
  | _ => []
  end.

(** Whether the dumps of lines 133 and 144, which only a verbose run
    makes, go through on the token: on its header when that decodes, and on
    its payload when both decode. *)
Definition verbose_dumps_ok `{!PyLib} (jwt_token : string) : bool :=
  match split_dot jwt_token with
  | [header_b64; payload_b64; _] =>
      match decode_segment header_b64 with
      | Ok header =>
          negb (dump_fails true header)
          && match decode_segment payload_b64 with
             | Ok payload => negb (dump_fails true payload)
             | Err _ => true
             end
      | Err _ => true
      end
  | _ => true
  end.

(** A computation that prints the same lines and ends the same way from
    every state, without ending the process. *)
Definition prints_fixed {A : Type} (m : M A) : Prop :=
  ∃ o ls, (∀ c, o ≠ Exit c) ∧ ∀ st, m st = (o, add_out st ls).

(** [loud] prints what [quiet] prints and then possibly more; when [quiet]
    raises, [loud] raises the same exception at the same point. *)
Definition prints_more {A : Type} (quiet loud : M A) : Prop :=
  ∃ o ls o' ls',
    (∀ st, quiet st = (o, add_out st ls))
    ∧ (∀ st, loud st = (o', add_out st (ls ++ ls')))
    ∧ (∀ e, o = Raise e → o' = Raise e ∧ ls' = [])
    ∧ (∀ c, o ≠ Exit c) ∧ (∀ c, o' ≠ Exit c).

(** More texts, directories and services for the examples. *)
Module Extra.

(** The text [{"evidence": 5}]. *)
Definition number_evidence_text : string :=
  "{" +:+ Demo.dq +:+ "evidence" +:+ Demo.dq +:+ ": 5}".

Definition loads (s : string) : result json :=
  if String.eqb s number_evidence_text then Ok (JDict [("evidence", JInt 5)])
  else Demo.loads s.

Definition lib : PyLib := {|
  json_loads := loads;
  json_dumps := Demo.dumps;
  json_dumps_indent := Demo.dumps;
  bytes_decode := Demo.decode;
  json_dumps_indent_error := λ _, None;
  print_refuses := λ _, None;
|}.

Definition number_evidence_dir : gmap string string :=
  {[ "evidence.json" := number_evidence_text ]}.
Definition broken_dir : gmap string string :=
  {[ "evidence.json" := "not json" ]}.
Definition list_dir : gmap string string :=
  {[ "evidence.json" := "[1,2]" ]}.

(** A service that cannot be reached. *)
Definition unreachable : world :=
  World ∅ (λ _, PostRaises RequestException).

(** A payload with a status and a trust vector of two dimensions. *)
Definition vector : list (string * json) :=
  [ ("configuration", JInt 2); ("executables", JInt 3) ].
Definition vector_cpu0 : list (string * json) :=
  [ ("ear.status", JStr "affirming"); ("ear.trustworthiness-vector", JDict vector) ].
Definition vector_payload : json :=
  JDict [ ("submods", JDict [ ("cpu0", JDict vector_cpu0) ]) ].

(** A payload with three event log entries: one of the start of the
    application, one of the Cryptpilot domain, one without details. *)
Definition start_entry : json :=
  JDict [ ("details", JDict [ ("data", JDict [ ("operation", JStr "start_app") ]) ]) ].
Definition cryptpilot_entry : json :=
  JDict [ ("details",
           JDict [ ("data", JDict [ ("domain", JStr "cryptpilot.alibabacloud.com");
                                    ("operation", JStr "fde") ]) ]) ].
Definition bare_entry : json := JDict [ ("index", JInt 1) ].
Definition logs : list json := [ start_entry; cryptpilot_entry; bare_entry ].
Definition logs_tdx : list (string * json) := [ ("uefi_event_logs", JList logs) ].
Definition logs_evidence : list (string * json) := [ ("tdx", JDict logs_tdx) ].
Definition logs_cpu0 : list (string * json) :=
  [ ("ear.status", JStr "affirming");
    ("ear.veraison.annotated-evidence", JDict logs_evidence) ].
Definition logs_payload : json :=
  JDict [ ("submods", JDict [ ("cpu0", JDict logs_cpu0) ]) ].

(** A payload whose quote has no body. *)
Definition quote_tdx : list (string * json) := [ ("quote", JDict [ ("header", JInt 4) ]) ].
Definition quote_evidence : list (string * json) := [ ("tdx", JDict quote_tdx) ].
Definition quote_cpu0 : list (string * json) :=
  [ ("ear.status", JStr "affirming");
    ("ear.veraison.annotated-evidence", JDict quote_evidence) ].
Definition quote_payload : json :=
  JDict [ ("submods", JDict [ ("cpu0", JDict quote_cpu0) ]) ].

End Extra.

(** A library that gives up on deep values as CPython 3.11 does at the
    depth of [decode_jwt]: [json.loads] takes up to 992 arrays inside each
    other, and [json.dumps(..., indent=2)] raises a [RecursionError] on the
    992nd. *)
Module Deep.

(** [1.5] as binary64. *)
Definition one_and_a_half : json := JFloat 4609434218613702656.

Fixpoint nested (n : nat) (v : json) : json :=
  match n with
  | O => v
  | S n' => JList [nested n' v]
  end.

(** The text of [n] arrays around [1.5]. *)
Definition nested_text (n : nat) : string :=
  str_repeat "["%char n +:+ "1.5" +:+ str_repeat "]"%char n.

Fixpoint depth (v : json) : nat :=
  match v with
  | JList l => S (foldr (λ x m, Nat.max (depth x) m) 0%nat l)
  | JDict d => S (foldr (λ kv m, Nat.max (depth kv.2) m) 0%nat d)
  | _ => 0%nat
  end.

(** The opening brackets a text starts with, and what follows them. *)
Fixpoint leading_brackets (s : string) : nat * string :=
  match s with
  | String c s' =>
      if Ascii.eqb c "["%char
      then let '(n, rest) := leading_brackets s' in (S n, rest)
      else (0%nat, s)
  | EmptyString => (0%nat, s)
  end.

(** [json.loads] on the texts of the examples and on arrays around [1.5]. *)
Definition loads (s : string) : result json :=
  match Demo.loads s with
  | Ok v => Ok v
  | Err _ =>
      let '(n, rest) := leading_brackets s in
      if String.eqb rest ("1.5" +:+ str_repeat "]"%char n)
      then if (n <=? 992)%nat then Ok (nested n one_and_a_half) else Err RecursionError
      else Err JSONDecodeError
  end.

(** The text of arrays around [1.5], without the indentation, which no
    statement depends on. *)
Fixpoint dumps (v : json) : string :=
  match v with
  | JList [x] => "[" +:+ dumps x +:+ "]"
  | JFloat _ => "1.5"
  | _ => Demo.dumps v
  end.

Definition lib : PyLib := {|
  json_loads := loads;
  json_dumps := dumps;
  json_dumps_indent := dumps;
  bytes_decode := Demo.decode;
  json_dumps_indent_error :=
    λ v, if (992 <=? depth v)%nat then Some RecursionError else None;
  print_refuses := λ _, None;
|}.

(** The deepest value the parser returns, and the segment that holds it. *)
Definition deep_value : json := nested 992 one_and_a_half.
Definition deep_segment : string := Base64.base64url (Base64.codes (nested_text 992)).

(** A token whose payload is the deep value, and one whose header is. *)
Definition deep_payload_token : string := "e30." +:+ deep_segment +:+ ".sig".
Definition deep_header_token : string := deep_segment +:+ ".e30.sig".

End Deep.

(** A console that cannot encode a lone surrogate, as the standard output
    of CPython with UTF-8: [print] raises a [UnicodeEncodeError] on the
    string [json.loads] returns for the text of the escape [\ud800]. *)
Module Surrogate.

(** The code point U+D800, written as the three bytes ED A0 80. *)
Definition lone_surrogate : string :=
  String (ascii_of_nat 237) (String (ascii_of_nat 160) (String (ascii_of_nat 128) "")).

Definition refuses (v : json) : option exn :=
  match v with
  | JStr s => if String.eqb s lone_surrogate then Some UnicodeEncodeError else None
  | _ => None
  end.

(** A payload whose status is that string, its text, in which the string
    is written as an escape, and a token that carries it. *)
Definition payload : json :=
  JDict [ ("submods", JDict [ ("cpu0", JDict [ ("ear.status", JStr lone_surrogate) ]) ]) ].

Definition payload_text : string :=
  "{" +:+ Demo.dq +:+ "submods" +:+ Demo.dq +:+ ": {"
  +:+ Demo.dq +:+ "cpu0" +:+ Demo.dq +:+ ": {"
  +:+ Demo.dq +:+ "ear.status" +:+ Demo.dq +:+ ": "
  +:+ Demo.dq +:+ "\ud800" +:+ Demo.dq +:+ "}}}".

Definition token : string :=
  "e30." +:+ Base64.base64url (Base64.codes payload_text) +:+ ".sig".

Definition loads (s : string) : result json :=
  if String.eqb s payload_text then Ok payload else Demo.loads s.

Definition lib : PyLib := {|
  json_loads := loads;
  json_dumps := Demo.dumps;
  json_dumps_indent := Demo.dumps;
  bytes_decode := Demo.decode;
  json_dumps_indent_error := λ _, None;
  print_refuses := refuses;
|}.

End Surrogate.

Section Frame.

Context `{!PyLib}.

Lemma add_out_nil st : add_out st [] = st.
Proof. destruct st; unfold add_out; simpl. by rewrite app_nil_r. Qed.

Lemma add_out_app st ls1 ls2 :
  add_out (add_out st ls1) ls2 = add_out st (ls1 ++ ls2).
Proof. unfold add_out; simpl. by rewrite app_assoc. Qed.

Lemma prints_only_ret {A} (a : A) : prints_only (ret a).
Proof.
  intros st. exists (Ret a), []. rewrite add_out_nil. split; [done | congruence].
Qed.

Lemma prints_only_lift {A} (r : result A) : prints_only (lift r).
Proof.
  intros st. destruct r as [a | e]; [exists (Ret a), [] | exists (Raise e), []];
    rewrite add_out_nil; (split; [done | congruence]).
Qed.

Lemma prints_only_emit l : prints_only (emit l).
Proof. intros st. exists (Ret ()), [l]. split; [done | congruence]. Qed.

Lemma prints_only_print_value prefix v : prints_only (print_value prefix v).
Proof.
  unfold print_value. destruct (print_refuses v);
    [apply prints_only_lift | apply prints_only_emit].
Qed.

Lemma prints_only_bind {A B} (m : M A) (k : A → M B) :
  prints_only m → (∀ a, prints_only (k a)) → prints_only (bind m k).
Proof.
  intros Hm Hk st. unfold bind.
  destruct (Hm st) as (o & ls & -> & Ho).
  destruct o as [a | e | c].
  - destruct (Hk a (add_out st ls)) as (o' & ls' & -> & Ho').
    exists o', (ls ++ ls'). by rewrite add_out_app.
  - exists (Raise e), ls. split; [done | congruence].
  - by destruct (Ho c).
Qed.

Lemma prints_only_when b (m : M unit) : prints_only m → prints_only (when b m).
Proof. destruct b; simpl; [done | intros _; apply prints_only_ret]. Qed.

Lemma prints_only_for_each {A S} (items : list A) (body : A → S → M S) :
  (∀ x s, prints_only (body x s)) → ∀ s, prints_only (for_each items s body).
Proof.
  intros Hbody. induction items as [| x items IH]; intros s; simpl.
  - apply prints_only_ret.
  - apply prints_only_bind; [apply Hbody | apply IH].
Qed.

Lemma prints_only_try_except {A} (body : M A) (handler : exn → M A) :
  prints_only body → (∀ e, prints_only (handler e)) →
  prints_only (try_except body handler).
Proof.
  intros Hb Hh st. unfold try_except.
  destruct (Hb st) as (o & ls & -> & Ho).
  destruct o as [a | e | c].
  - exists (Ret a), ls. split; [done | congruence].
  - destruct (Hh e (add_out st ls)) as (o' & ls' & -> & Ho').
    exists o', (ls ++ ls'). by rewrite add_out_app.
  - by destruct (Ho c).
Qed.

End Frame.

Ltac prints_only_step :=
  first
    [ apply prints_only_ret
    | apply prints_only_lift
    | apply prints_only_emit
    | apply prints_only_print_value
    | apply prints_only_when
    | apply prints_only_for_each
    | apply prints_only_try_except
    | apply prints_only_bind
    | match goal with |- prints_only (if ?b then _ else _) => destruct b end
    | match goal with |- prints_only (match ?e with _ => _ end) => destruct e end
    | intro ].

Ltac prints_only_tac := unfold print, printf, print_exc; repeat prints_only_step.

Ltac collect_out := simpl; rewrite <- ?app_assoc; eexists; reflexivity.

Section Interpreter.

Context `{!PyLib}.

Lemma start_app_step_prints_only log found : prints_only (start_app_step log found).
Proof. unfold start_app_step. prints_only_tac. Qed.

Lemma cryptpilot_step_prints_only log found : prints_only (cryptpilot_step log found).
Proof. unfold cryptpilot_step. prints_only_tac. Qed.

Lemma extract_summary_prints_only payload verbose :
  prints_only (extract_summary payload verbose).
Proof.
  unfold extract_summary.
  pose proof start_app_step_prints_only. pose proof cryptpilot_step_prints_only.
  prints_only_tac; done.
Qed.

Lemma decode_jwt_run tok verbose st :
  ∃ ls, decode_jwt tok verbose st =
        (Ret (), {| out := out st ++ ls;
                    fs := decode_jwt_files tok verbose (fs st);
                    posts := posts st |}).
Proof.
  unfold decode_jwt, decode_jwt_files, written_payload, dump_fails, try_except.
  destruct (split_dot tok) as [| h [| p [| s [| x parts]]]]; simpl;
    try (by eexists).
  unfold bind, lift, when, print, printf, print_exc, emit, open_write, try_except, ret,
    dumps_indent.
  destruct (decode_segment h) as [header | e]; simpl; [| collect_out].
  destruct verbose; simpl.
  1: destruct (json_dumps_indent_error header) as [e |]; simpl; [collect_out |].
  all: destruct (decode_segment p) as [payload | e]; simpl; [| collect_out].
  1: destruct (json_dumps_indent_error payload) as [e |]; simpl; [collect_out |].
  all:
    match goal with
    | |- context [extract_summary ?pl ?v ?st0] =>
        destruct (extract_summary_prints_only pl v st0) as (o & ls & -> & Ho)
    end;
    (destruct o as [[] | e | c]; [| destruct e | by destruct (Ho c)]);
    unfold add_out; collect_out.
Qed.

(** A token that does not have three segments is reported and left. *)
Lemma decode_jwt_bad_format tok verbose st :
  length (split_dot tok) ≠ 3%nat →
  decode_jwt tok verbose st = (Ret (), add_out st [Print "✗ invalid JWT format"]).
Proof.
  intros Hlen. unfold decode_jwt, try_except.
  destruct (split_dot tok) as [| h [| p [| s [| x parts]]]]; simpl in *; done.
Qed.

Lemma dump_fails_false verbose v :
  dump_fails verbose v = false →
  verbose = false ∨ (verbose = true ∧ json_dumps_indent_error v = None).
Proof.
  unfold dump_fails. destruct verbose; [| by left]. simpl.
  destruct (json_dumps_indent_error v); [done | by right].
Qed.


(** So does a payload that does not decode, once the header has decoded
    and, in verbose mode, been printed. *)
Lemma decode_jwt_payload_error tok verbose st h p s header e :
  split_dot tok = [h; p; s] →
  decode_segment h = Ok header →
  dump_fails verbose header = false →
  decode_segment p = Err e →
  decode_jwt tok verbose st =
    (Ret (),
     add_out st
       ((if verbose
         then [ Print "========== JWT Header ==========";
                Print (json_dumps_indent header); Print "" ]
         else [])
        ++ [PrintF "✗ failed to decode JWT: " (FExn e); Traceback e])).
Proof.
  intros Hparts Hh Hdh Hp. unfold decode_jwt, try_except. rewrite Hparts. simpl.
  unfold bind at 1, lift at 1. rewrite Hh.
  unfold bind, lift, when, print, printf, print_exc, emit, ret, add_out, dumps_indent.
  destruct (dump_fails_false _ _ Hdh) as [-> | [-> Hnone]]; simpl;
    rewrite ?Hnone; simpl; rewrite Hp; simpl; by rewrite <- ?app_assoc.
Qed.

(** In verbose mode the dump of the header may raise, after the heading
    and before the payload is looked at. *)
Lemma decode_jwt_header_dump_error tok st h p s header e :
  split_dot tok = [h; p; s] →
  decode_segment h = Ok header →
  json_dumps_indent_error header = Some e →
  decode_jwt tok true st =
    (Ret (),
     add_out st [ Print "========== JWT Header ==========";
                  PrintF "✗ failed to decode JWT: " (FExn e); Traceback e ]).
Proof.
  intros Hparts Hh Hdh. unfold decode_jwt, try_except. rewrite Hparts. simpl.
  unfold bind at 1, lift at 1. rewrite Hh.
  unfold bind, lift, when, print, printf, print_exc, emit, ret, add_out, dumps_indent.
  simpl. rewrite Hdh. simpl. by rewrite <- ?app_assoc.
Qed.

(** And so may the dump of the payload, before the file is opened. *)
Lemma decode_jwt_payload_dump_error tok st h p s header payload e :
  split_dot tok = [h; p; s] →
  decode_segment h = Ok header →
  json_dumps_indent_error header = None →
  decode_segment p = Ok payload →
  json_dumps_indent_error payload = Some e →
  decode_jwt tok true st =
    (Ret (),
     add_out st [ Print "========== JWT Header ==========";
                  Print (json_dumps_indent header); Print "";
                  Print "========== JWT Payload (full) ==========";
                  PrintF "✗ failed to decode JWT: " (FExn e); Traceback e ]).
Proof.
  intros Hparts Hh Hdh Hp Hdp. unfold decode_jwt, try_except. rewrite Hparts. simpl.
  unfold bind at 1, lift at 1. rewrite Hh.
  unfold bind, lift, when, print, printf, print_exc, emit, ret, add_out, dumps_indent.
  simpl. rewrite Hdh. simpl. rewrite Hp. simpl. rewrite Hdp. simpl.
  by rewrite <- ?app_assoc.
Qed.

(** The summary stops at the first lookup when the status is not there. *)
Lemma extract_summary_no_status payload verbose st e :
  lookup_status payload = Err e →
  extract_summary payload verbose st = (Raise e, st).
Proof.
  unfold lookup_status, extract_summary. intros Hst.
  unfold bind at 1, lift at 1.
  destruct (py_getitem payload "submods") as [submods | e1]; simpl in *.
  2: { by injection Hst as ->. }
  destruct (py_getitem submods "cpu0") as [cpu0 | e2]; simpl in *.
  2: { by injection Hst as ->. }
  unfold bind at 1, lift at 1. by rewrite Hst.
Qed.

(** And at the print of the status when the console refuses it. *)
Lemma extract_summary_unprintable_status payload verbose st status e :
  lookup_status payload = Ok status →
  print_refuses status = Some e →
  extract_summary payload verbose st = (Raise e, st).
Proof.
  unfold lookup_status, extract_summary, print_value. intros Hst Hpr.
  unfold bind at 1, lift at 1.
  destruct (py_getitem payload "submods") as [submods | e1]; simpl in *; [| done].
  destruct (py_getitem submods "cpu0") as [cpu0 | e2]; simpl in *; [| done].
  unfold bind at 1, lift at 1. rewrite Hst.
  unfold bind at 1. by rewrite Hpr.
Qed.

(** A summary that raises at once is reported by the handlers of lines
    207-213, after the payload has been written. *)
Lemma decode_jwt_summary_raised tok verbose st h p s header payload e :
  split_dot tok = [h; p; s] →
  decode_segment h = Ok header →
  decode_segment p = Ok payload →
  dump_fails verbose header = false →
  dump_fails verbose payload = false →
  (∀ st', extract_summary payload verbose st' = (Raise e, st')) →
  ∃ pre,
    decode_jwt tok verbose st =
      (Ret (),
       {| out := out st ++ pre
                 ++ Print "========== verification result =========="
                    :: summary_diagnostic e verbose;
          fs := <["jwt_payload.json" := json_dumps_indent payload]> (fs st);
          posts := posts st |}).
Proof.
  intros Hparts Hh Hp Hdh Hdp Hraise.
  unfold decode_jwt, try_except at 1. rewrite Hparts. simpl.
  unfold bind at 1, lift at 1. rewrite Hh.
  unfold bind at 2, lift at 1.
  unfold try_except, bind, when, print, printf, print_exc, emit, open_write, ret, lift,
    dumps_indent.
  destruct (dump_fails_false _ _ Hdh) as [-> | [-> Hnh]].
  - simpl. rewrite Hp. simpl. rewrite Hraise. simpl.
    exists []. destruct e; simpl; by rewrite <- ?app_assoc.
  - destruct (dump_fails_false _ _ Hdp) as [[=] | [_ Hnp]].
    simpl. rewrite Hnh. simpl. rewrite Hp. simpl. rewrite Hnp. simpl.
    rewrite Hraise. simpl.
    exists [ Print "========== JWT Header =========="; Print (json_dumps_indent header);
             Print ""; Print "========== JWT Payload (full) ==========";
             Print (json_dumps_indent payload); Print "";
             Print "✓ JWT payload is saved to jwt_payload.json"; Print "" ].
    destruct e; simpl; by rewrite <- ?app_assoc.
Qed.

End Interpreter.

Section Run.

Arguments decode_jwt : simpl never.

Context `{!PyLib}.

Lemma run_load_failed w verbose files e :
  load_evidence files = Err e →
  run w verbose files =
    (Exit 1, {| out := Print "read evidence file: evidence.json..." :: loader_diagnostic e;
                fs := files; posts := [] |}).
Proof.
  unfold load_evidence, run, main, verify_evidence.
  unfold bind, try_except, open_read, lift, print, printf, print_exc, emit, sys_exit.
  simpl. destruct (files !! "evidence.json") as [content |]; simpl.
  - destruct (json_loads content) as [data | e1]; simpl.
    + destruct (py_getitem data "evidence") as [body | e2]; simpl; [done |].
      intros [= ->]. by destruct e.
    + intros [= ->]. by destruct e.
  - by intros [= <-].
Qed.

Ltac run_to_post Hload Hlen Hpost :=
  unfold load_evidence in Hload;
  unfold run, main, verify_evidence, preamble, error_lines;
  unfold the_request in *;
  unfold bind, try_except, try_bare, open_read, open_write, requests_post,
    lift, print, printf, print_exc, emit, sys_exit, ret;
  simpl;
  destruct (_ !! "evidence.json") as [content |]; [| done];
  simpl in *; destruct (json_loads content) as [data |]; [| done];
  simpl in *; rewrite Hload, Hlen; simpl; revert Hpost;
  change ("http://" +:+ "localhost" +:+ ":" +:+ "8081"
          +:+ "/api/attestation-service/attestation")
    with "http://localhost:8081/api/attestation-service/attestation";
  match goal with
  | |- context [if ?c then [_] else []] => destruct c
  end; simpl; intros ->; simpl.

Lemma run_post_raises w verbose files body n e :
  load_evidence files = Ok body →
  py_len body = Ok n →
  service w (the_request w body) = PostRaises e →
  run w verbose files =
    (Exit 1,
     {| out := preamble w n ++ [Print (nl +:+ "send verification request...")]
               ++ post_failure_lines e;
        fs := files; posts := [the_request w body] |}).
Proof.
  intros Hload Hlen Hpost. run_to_post Hload Hlen Hpost; by destruct e.
Qed.

Lemma run_rejected w verbose files body n sc text :
  load_evidence files = Ok body →
  py_len body = Ok n →
  service w (the_request w body) = Response sc text →
  sc ≠ 200 →
  run w verbose files =
    (Exit 1,
     {| out := preamble w n
               ++ [ Print (nl +:+ "send verification request...");
                    PrintF "HTTP status code: " (FInt sc);
                    Print "✗ TDX quote verification failed" ]
               ++ error_lines text;
        fs := files; posts := [the_request w body] |}).
Proof.
  intros Hload Hlen Hpost Hsc. apply Z.eqb_neq in Hsc.
  run_to_post Hload Hlen Hpost; rewrite Hsc; simpl; by destruct (json_loads text).
Qed.

Lemma run_accepted w verbose files body n text :
  load_evidence files = Ok body →
  py_len body = Ok n →
  service w (the_request w body) = Response 200 text →
  ∃ ls, run w verbose files =
    (Ret (),
     {| out := ls;
        fs := <["jwt_token.txt" := text]> (decode_jwt_files text verbose files);
        posts := [the_request w body] |}).
Proof.
  intros Hload Hlen Hpost.
  run_to_post Hload Hlen Hpost;
    match goal with
    | |- context [decode_jwt ?t ?v ?st0] =>
        destruct (decode_jwt_run t v st0) as [ls ->]
    end; simpl; by eexists.
Qed.

(** The transcript of an accepted run is that of [decode_jwt] from one
    state, followed by the line on the saved token. *)
Lemma run_accepted_out w files body n text :
  load_evidence files = Ok body →
  py_len body = Ok n →
  service w (the_request w body) = Response 200 text →
  ∃ pre, ∀ verbose,
    out (run w verbose files).2 =
      out (decode_jwt text verbose
             {| out := pre; fs := files; posts := [the_request w body] |}).2
      ++ [Print (nl +:+ "✓ JWT token is saved to jwt_token.txt")].
Proof.
  intros Hload Hlen Hpost.
  exists (preamble w n
          ++ [ Print (nl +:+ "send verification request...");
               PrintF "HTTP status code: " (FInt 200);
               Print "✓ TDX quote verification succeeded!"; Print "" ]).
  intros verbose.
  match goal with
  | |- context [decode_jwt text verbose ?s1] =>
      destruct (decode_jwt_run text verbose s1) as [ls Hrun]
  end.
  rewrite Hrun. cbn [out snd]. unfold load_evidence in Hload.
  unfold run, main, verify_evidence, preamble in *. unfold the_request in *.
  unfold bind, try_except, try_bare, open_read, open_write, requests_post,
    lift, print, printf, print_exc, emit, sys_exit, ret.
  simpl. destruct (_ !! "evidence.json") as [content |]; [| done].
  simpl in *. destruct (json_loads content) as [data |]; [| done].
  simpl in *. rewrite Hload, Hlen. simpl. revert Hpost Hrun.
  change ("http://" +:+ "localhost" +:+ ":" +:+ "8081"
          +:+ "/api/attestation-service/attestation")
    with "http://localhost:8081/api/attestation-service/attestation".
  match goal with
  | |- context [if ?c then [_] else []] => destruct c
  end; simpl; intros -> Hrun; simpl;
    match goal with
    | |- context [decode_jwt ?t ?v ?s0] =>
        match type of Hrun with
        | decode_jwt _ _ ?s1 = _ =>
            change (decode_jwt t v s0) with (decode_jwt t v s1)
        end
    end; rewrite Hrun; simpl; by rewrite <- ?app_assoc.
Qed.

Lemma run_len_failed w verbose files body e :
  load_evidence files = Ok body →
  py_len body = Err e →
  run w verbose files =
    (Raise e, {| out := [Print "read evidence file: evidence.json..."];
                 fs := files; posts := [] |}).
Proof.
  intros Hload Hlen. unfold load_evidence in Hload.
  unfold run, main, verify_evidence.
  unfold bind, try_except, open_read, lift, print, emit. simpl.
  destruct (files !! "evidence.json") as [content |]; [| done].
  simpl in *. destruct (json_loads content) as [data |]; [| done].
  simpl in *. by rewrite Hload, Hlen.
Qed.

(** The exit, the files and the requests of a run are those of
    [run_summary], whatever the run prints. *)
Lemma run_summary_ok w verbose files :
  let r := run w verbose files in
  (r.1, fs r.2, posts r.2) = run_summary w verbose files.
Proof.
  unfold run_summary.
  destruct (load_evidence files) as [body | e] eqn:Hload.
  2: { by rewrite (run_load_failed _ _ _ _ Hload). }
  destruct (py_len body) as [n | e] eqn:Hlen.
  2: { by rewrite (run_len_failed _ _ _ _ _ Hload Hlen). }
  simpl. destruct (service w (the_request w body)) as [sc text | e] eqn:Hpost.
  2: { by rewrite (run_post_raises _ _ _ _ _ _ Hload Hlen Hpost). }
  destruct (Z.eqb_spec sc 200) as [-> | Hsc].
  - by destruct (run_accepted _ verbose _ _ _ _ Hload Hlen Hpost) as [ls ->].
  - by rewrite (run_rejected _ _ _ _ _ _ _ Hload Hlen Hpost Hsc).
Qed.

(** A run that issued a request had loaded the evidence, and the request
    is the one built from it. *)
Lemma run_posted_inv w verbose files rq :
  posts (run w verbose files).2 = [rq] →
  ∃ body n, load_evidence files = Ok body ∧ py_len body = Ok n
            ∧ rq = the_request w body.
Proof.
  intros Hposts. pose proof (run_summary_ok w verbose files) as Hsum.
  cbv zeta in Hsum. unfold run_summary in Hsum.
  destruct (load_evidence files) as [body | e] eqn:Hload; [| congruence].
  destruct (py_len body) as [n | e] eqn:Hlen; [| congruence].
  exists body, n. split; [done |]. split; [done |].
  cbv zeta in Hsum.
  destruct (service w (the_request w body)) as [sc text | e];
    [destruct (sc =? 200) |]; congruence.
Qed.

(** The files a run ends with differ from the initial ones at the two
    output paths at most. *)
Lemma decode_jwt_files_frame tok verbose files path :
  path ≠ "jwt_payload.json" →
  decode_jwt_files tok verbose files !! path = files !! path.
Proof.
  intros Hpay. unfold decode_jwt_files.
  destruct (written_payload tok verbose); [| done].
  by rewrite lookup_insert_ne.
Qed.

Lemma run_summary_frame w verbose files path :
  path ≠ "jwt_token.txt" →
  path ≠ "jwt_payload.json" →
  (run_summary w verbose files).1.2 !! path = files !! path.
Proof.
  intros Htok Hpay. unfold run_summary.
  destruct (load_evidence files) as [body |]; [| done].
  destruct (py_len body); [| done].
  cbv zeta. destruct (service w (the_request w body)) as [sc text |]; [| done].
  destruct (sc =? 200); [| done]. cbn [fst snd].
  rewrite lookup_insert_ne by done. by apply decode_jwt_files_frame.
Qed.

(** What the verbose flag can change in the files: when the dump of the
    header or of the payload raises, the payload is not written. *)
Lemma written_payload_verbose tok payload :
  written_payload tok true = Some payload →
  written_payload tok false = Some payload.
Proof.
  unfold written_payload, dump_fails.
  destruct (split_dot tok) as [| h [| p [| s [| x parts]]]]; try done.
  destruct (decode_segment h) as [header |]; [| done]. simpl.
  destruct (json_dumps_indent_error header); [done |].
  destruct (decode_segment p) as [pl |]; [| done].
  by destruct (json_dumps_indent_error pl).
Qed.

Lemma written_payload_spec tok verbose payload :
  written_payload tok verbose = Some payload ↔
  ∃ h p s header,
    split_dot tok = [h; p; s]
    ∧ decode_segment h = Ok header
    ∧ decode_segment p = Ok payload
    ∧ dump_fails verbose header = false
    ∧ dump_fails verbose payload = false.
Proof.
  unfold written_payload. split.
  - destruct (split_dot tok) as [| h [| p [| s [| x parts]]]]; try done.
    destruct (decode_segment h) as [header |] eqn:Hh; [| done].
    destruct (dump_fails verbose header) eqn:Hdh; [done |].
    destruct (decode_segment p) as [pl |] eqn:Hp; [| done].
    destruct (dump_fails verbose pl) eqn:Hdp; [done |].
    intros [= <-]. by exists h, p, s, header.
  - intros (h & p & s & header & -> & -> & -> & -> & ->). done.
Qed.

Lemma written_payload_dumps_ok tok :
  verbose_dumps_ok tok = true →
  written_payload tok true = written_payload tok false.
Proof.
  unfold verbose_dumps_ok, written_payload.
  destruct (split_dot tok) as [| h [| p [| s [| x parts]]]]; try done.
  destruct (decode_segment h) as [header |]; [| done].
  unfold dump_fails. simpl.
  destruct (json_dumps_indent_error header); [done |]. simpl.
  destruct (decode_segment p) as [pl |]; [| done].
  by destruct (json_dumps_indent_error pl).
Qed.

Lemma run_fs_summary w verbose files :
  fs (run w verbose files).2 = (run_summary w verbose files).1.2.
Proof.
  pose proof (run_summary_ok w verbose files) as Hsum. cbv zeta in Hsum.
  by rewrite <- Hsum.
Qed.

Lemma aa_instance_info_nonempty w :
  aa_instance_info (environ_get w "IMAGE_ID" "") (environ_get w "INSTANCE_ID" "")
    (environ_get w "INSTANCE_NAME" "") (environ_get w "OWNER_ACCOUNT_ID" "")
  = nonempty_fields w.
Proof.
  unfold aa_instance_info, nonempty_fields, identity_fields. simpl.
  by destruct (truthy (environ_get w "IMAGE_ID" "")),
    (truthy (environ_get w "INSTANCE_ID" "")),
    (truthy (environ_get w "INSTANCE_NAME" "")),
    (truthy (environ_get w "OWNER_ACCOUNT_ID" "")).
Qed.

Lemma the_request_headers w body :
  headers (the_request w body) =
    ("Content-Type", "application/json")
    :: match nonempty_fields w with
       | [] => []
       | info => [("AAInstanceInfo", json_dumps (JDict info))]
       end.
Proof.
  unfold the_request. cbn [headers]. rewrite aa_instance_info_nonempty.
  unfold nonempty_fields, identity_fields. simpl.
  by destruct (truthy (environ_get w "IMAGE_ID" "")),
    (truthy (environ_get w "INSTANCE_ID" "")),
    (truthy (environ_get w "INSTANCE_NAME" "")),
    (truthy (environ_get w "OWNER_ACCOUNT_ID" "")).
Qed.

End Run.

(** ** Facts about the base64 model *)

Module Base64Facts.
Import Base64.

(** Checking a boolean property on every value below a bound. *)
Lemma forallb_below (P : Z → bool) (n : Z) :
  forallb P (seqZ 0 n) = true → ∀ a, 0 ≤ a < n → P a = true.
Proof.
  intros Hall a Ha. rewrite forallb_forall in Hall.
  apply Hall, list_elem_of_In, elem_of_seqZ. lia.
Qed.

Lemma forallb_below2 (P : Z → Z → bool) (n m : Z) :
  forallb (λ a, forallb (P a) (seqZ 0 m)) (seqZ 0 n) = true →
  ∀ a b, 0 ≤ a < n → 0 ≤ b < m → P a b = true.
Proof.
  intros Hall a b Ha Hb.
  apply (forallb_below (P a) m); [| done].
  by apply (forallb_below (λ a, forallb (P a) (seqZ 0 m)) n).
Qed.

(** A character of the URL-safe alphabet is an ASCII character other than
    the pad, and after the translation the decoding table gives its value
    back. *)
Lemma alphabet_roundtrip n :
  0 ≤ n < 64 →
  let c := code (table_b2a_urlsafe n) in
  let c' := urlsafe_decode_translation c in
  c < 128 ∧ c' ≠ BASE64_PAD ∧ table_a2b_base64 c' = n.
Proof.
  intros Hn. pose proof (forallb_below alphabet_ok 64 eq_refl n Hn) as H.
  unfold alphabet_ok in H. simpl.
  apply andb_true_iff in H as [H H3]. apply andb_true_iff in H as [H1 H2].
  apply Z.ltb_lt in H1. apply negb_true_iff, Z.eqb_neq in H2. apply Z.eqb_eq in H3.
  done.
Qed.

(** The bit identities behind one group of three bytes. *)
Lemma group12_spec a b :
  is_byte a → is_byte b →
  0 ≤ sextet1 a < 64 ∧ 0 ≤ sextet2 a b < 64
  ∧ Z.land (Z.lor (Z.shiftl (sextet1 a) 2) (Z.shiftr (sextet2 a b) 4)) 255 = a
  ∧ Z.land (sextet2 a b) 15 = Z.shiftr b 4.
Proof.
  intros Ha Hb.
  pose proof (forallb_below2 group12_ok 256 256 ltac:(vm_compute; reflexivity) a b Ha Hb) as H.
  unfold group12_ok in H. cbv zeta in H.
  repeat (apply andb_true_iff in H as [H ?]).
  repeat match goal with
         | H : (_ <=? _) = true |- _ => apply Z.leb_le in H
         | H : (_ <? _) = true |- _ => apply Z.ltb_lt in H
         | H : (_ =? _) = true |- _ => apply Z.eqb_eq in H
         end.
  done.
Qed.

Lemma group34_spec b c :
  is_byte b → is_byte c →
  0 ≤ sextet3 b c < 64 ∧ 0 ≤ sextet4 c < 64
  ∧ Z.land (Z.lor (Z.shiftl (Z.shiftr b 4) 4) (Z.shiftr (sextet3 b c) 2)) 255 = b
  ∧ Z.land (Z.lor (Z.shiftl (Z.land (sextet3 b c) 3) 6) (sextet4 c)) 255 = c.
Proof.
  intros Hb Hc.
  pose proof (forallb_below2 group34_ok 256 256 ltac:(vm_compute; reflexivity) b c Hb Hc) as H.
  unfold group34_ok in H. cbv zeta in H.
  repeat (apply andb_true_iff in H as [H ?]).
  repeat match goal with
         | H : (_ <=? _) = true |- _ => apply Z.leb_le in H
         | H : (_ <? _) = true |- _ => apply Z.ltb_lt in H
         | H : (_ =? _) = true |- _ => apply Z.eqb_eq in H
         end.
  done.
Qed.

(** Induction on a list by groups of three. *)
Lemma list_ind3 {A : Type} (P : list A → Prop) :
  P [] → (∀ a, P [a]) → (∀ a b, P [a; b]) →
  (∀ a b c l, P l → P (a :: b :: c :: l)) →
  ∀ l, P l.
Proof.
  intros H0 H1 H2 H3.
  fix IH 1. intros [| a [| b [| c l]]]; [done | done | done |].
  apply H3, IH.
Qed.

(** One turn of the loop on a character of the alphabet. *)
Lemma a2b_loop_data n rest quad_pos leftchar pads bin :
  0 ≤ n < 64 →
  a2b_loop (wire_char n :: rest) quad_pos leftchar pads bin =
    if quad_pos =? 0 then a2b_loop rest 1 n 0 bin
    else if quad_pos =? 1 then
      a2b_loop rest 2 (Z.land n 15) 0
        (bin ++ [Z.land (Z.lor (Z.shiftl leftchar 2) (Z.shiftr n 4)) 255])
    else if quad_pos =? 2 then
      a2b_loop rest 3 (Z.land n 3) 0
        (bin ++ [Z.land (Z.lor (Z.shiftl leftchar 4) (Z.shiftr n 2)) 255])
    else
      a2b_loop rest 0 0 0
        (bin ++ [Z.land (Z.lor (Z.shiftl leftchar 6) n) 255]).
Proof.
  intros Hn. destruct (alphabet_roundtrip n Hn) as (_ & Hpad & Htab).
  fold (wire_char n) in Hpad, Htab.
  cbn [a2b_loop]. apply Z.eqb_neq in Hpad. rewrite Hpad, Htab.
  by replace (64 <=? n) with false by (symmetry; apply Z.leb_gt; lia).
Qed.

(** One turn of the loop on a pad. *)
Lemma a2b_loop_pad rest quad_pos leftchar pads bin :
  a2b_loop (BASE64_PAD :: rest) quad_pos leftchar pads bin =
    if 2 <=? quad_pos then
      if 4 <=? quad_pos + (pads + 1) then Ok bin
      else a2b_loop rest quad_pos leftchar (pads + 1) bin
    else a2b_loop rest quad_pos leftchar pads bin.
Proof. reflexivity. Qed.

(** Pads between groups are skipped. *)
Lemma a2b_loop_pads_aligned k leftchar pads bin :
  a2b_loop (repeat BASE64_PAD k) 0 leftchar pads bin = Ok bin.
Proof. induction k as [| k IH]; [done |]. cbn [repeat]. by rewrite a2b_loop_pad. Qed.

(** A full group gives its three bytes back. *)
Lemma a2b_loop_group a b c rest leftchar pads bin :
  is_byte a → is_byte b → is_byte c →
  a2b_loop (wire_char (sextet1 a) :: wire_char (sextet2 a b)
            :: wire_char (sextet3 b c) :: wire_char (sextet4 c) :: rest)
    0 leftchar pads bin
  = a2b_loop rest 0 0 0 (bin ++ [a; b; c]).
Proof.
  intros Ha Hb Hc.
  destruct (group12_spec a b Ha Hb) as (H1 & H2 & Ea & E2).
  destruct (group34_spec b c Hb Hc) as (H3 & H4 & Eb & Ec).
  rewrite !a2b_loop_data by done. simpl.
  rewrite Ea, E2, Eb, Ec. by rewrite <- !app_assoc.
Qed.

(** A last group of one byte, closed by two pads. *)
Lemma a2b_loop_tail1 a rest leftchar pads bin :
  is_byte a →
  a2b_loop (wire_char (sextet1 a) :: wire_char (sextet2 a 0)
            :: BASE64_PAD :: BASE64_PAD :: rest) 0 leftchar pads bin
  = Ok (bin ++ [a]).
Proof.
  intros Ha.
  destruct (group12_spec a 0 Ha ltac:(unfold is_byte; lia)) as (H1 & H2 & Ea & _).
  rewrite !a2b_loop_data by done. cbn [Z.eqb].
  rewrite !a2b_loop_pad. simpl. by rewrite Ea.
Qed.

(** A last group of two bytes, closed by one pad. *)
Lemma a2b_loop_tail2 a b rest leftchar pads bin :
  is_byte a → is_byte b →
  a2b_loop (wire_char (sextet1 a) :: wire_char (sextet2 a b)
            :: wire_char (sextet3 b 0) :: BASE64_PAD :: rest) 0 leftchar pads bin
  = Ok (bin ++ [a; b]).
Proof.
  intros Ha Hb.
  destruct (group12_spec a b Ha Hb) as (H1 & H2 & Ea & E2).
  destruct (group34_spec b 0 Hb ltac:(unfold is_byte; lia)) as (H3 & _ & Eb & _).
  rewrite !a2b_loop_data by done. cbn [Z.eqb].
  rewrite a2b_loop_pad. simpl. rewrite Ea, E2, Eb. by rewrite <- !app_assoc.
Qed.

Lemma pad_count_aligned_step (n : nat) :
  pad_count (Z.of_nat (S (S (S (S n))))) = pad_count (Z.of_nat n).
Proof.
  unfold pad_count. f_equal.
  replace (Z.of_nat (S (S (S (S n))))) with (Z.of_nat n + 1 * 4) by lia.
  apply Z_mod_plus_full.
Qed.

(** Decoding the padded encoding, whatever number of pads follows it. *)
Lemma decode_wire_padded bs :
  Forall is_byte bs →
  ∀ k leftchar pads bin,
    a2b_loop (wire true bs ++ repeat BASE64_PAD k) 0 leftchar pads bin
    = Ok (bin ++ bs).
Proof.
  induction bs as [| a | a b | a b c bs IH] using list_ind3; intros Hbs k lc p bin.
  - simpl. rewrite a2b_loop_pads_aligned. by rewrite app_nil_r.
  - apply Forall_cons in Hbs as [Ha _]. by apply a2b_loop_tail1.
  - apply Forall_cons in Hbs as [Ha Hbs]. apply Forall_cons in Hbs as [Hb _].
    by apply a2b_loop_tail2.
  - apply Forall_cons in Hbs as [Ha Hbs]. apply Forall_cons in Hbs as [Hb Hbs].
    apply Forall_cons in Hbs as [Hc Hbs].
    change (wire true (a :: b :: c :: bs) ++ repeat BASE64_PAD k)
      with (wire_char (sextet1 a) :: wire_char (sextet2 a b)
            :: wire_char (sextet3 b c) :: wire_char (sextet4 c)
            :: (wire true bs ++ repeat BASE64_PAD k)).
    rewrite a2b_loop_group by done. rewrite IH by done.
    by rewrite <- app_assoc.
Qed.

(** Decoding the encoding without padding, once the script has padded it. *)
Lemma decode_wire_unpadded bs :
  Forall is_byte bs →
  ∀ leftchar pads bin,
    a2b_loop (wire false bs
              ++ repeat BASE64_PAD
                   (Z.to_nat (pad_count (Z.of_nat (length (b64url_chars false bs))))))
      0 leftchar pads bin
    = Ok (bin ++ bs).
Proof.
  induction bs as [| a | a b | a b c bs IH] using list_ind3; intros Hbs lc p bin.
  - change (Z.to_nat (pad_count (Z.of_nat (length (b64url_chars false []))))) with 4%nat.
    simpl wire. rewrite app_nil_l, a2b_loop_pads_aligned. by rewrite app_nil_r.
  - apply Forall_cons in Hbs as [Ha _]. by apply a2b_loop_tail1.
  - apply Forall_cons in Hbs as [Ha Hbs]. apply Forall_cons in Hbs as [Hb _].
    by apply a2b_loop_tail2.
  - apply Forall_cons in Hbs as [Ha Hbs]. apply Forall_cons in Hbs as [Hb Hbs].
    apply Forall_cons in Hbs as [Hc Hbs].
    change (length (b64url_chars false (a :: b :: c :: bs)))
      with (S (S (S (S (length (b64url_chars false bs)))))).
    rewrite pad_count_aligned_step.
    change (wire false (a :: b :: c :: bs) ++ ?t)
      with (wire_char (sextet1 a) :: wire_char (sextet2 a b)
            :: wire_char (sextet3 b c) :: wire_char (sextet4 c)
            :: (wire false bs ++ t)).
    rewrite a2b_loop_group by done. rewrite IH by done.
    by rewrite <- app_assoc.
Qed.

Lemma codes_app s1 s2 : codes (s1 +:+ s2) = codes s1 ++ codes s2.
Proof.
  unfold codes. induction s1 as [| c s1 IH]; [done |].
  change (String c s1 +:+ s2) with (String c (s1 +:+ s2)).
  cbn [list_ascii_of_string]. by rewrite !fmap_cons, IH.
Qed.

Lemma codes_of_chars l : codes (string_of_list_ascii l) = code <$> l.
Proof. unfold codes. by rewrite list_ascii_of_string_of_list_ascii. Qed.

Lemma codes_str_repeat k : codes (str_repeat "="%char k) = repeat BASE64_PAD k.
Proof.
  unfold codes. induction k as [| k IH]; [done |].
  cbn [str_repeat list_ascii_of_string repeat]. by rewrite fmap_cons, IH.
Qed.

Lemma length_of_chars l : String.length (string_of_list_ascii l) = length l.
Proof. induction l as [| c l IH]; [done |]. simpl. by rewrite IH. Qed.

(** The encoding is made of ASCII characters. *)
Lemma chars_ascii pad bs :
  Forall is_byte bs →
  Forall (λ c, c < 128) (code <$> b64url_chars pad bs).
Proof.
  assert (Hch : ∀ n, 0 ≤ n < 64 → code (table_b2a_urlsafe n) < 128)
    by (intros n Hn; apply (alphabet_roundtrip n Hn)).
  assert (H0 : is_byte 0) by (unfold is_byte; lia).
  induction bs as [| a | a b | a b c bs IH] using list_ind3; intros Hbs.
  - constructor.
  - apply Forall_cons in Hbs as [Ha _].
    destruct (group12_spec a 0 Ha H0) as (H1 & H2 & _).
    destruct pad; repeat constructor; auto.
  - apply Forall_cons in Hbs as [Ha Hbs]. apply Forall_cons in Hbs as [Hb _].
    destruct (group12_spec a b Ha Hb) as (H1 & H2 & _).
    destruct (group34_spec b 0 Hb H0) as (H3 & _).
    destruct pad; repeat constructor; auto.
  - apply Forall_cons in Hbs as [Ha Hbs]. apply Forall_cons in Hbs as [Hb Hbs].
    apply Forall_cons in Hbs as [Hc Hbs].
    destruct (group12_spec a b Ha Hb) as (H1 & H2 & _).
    destruct (group34_spec b c Hb Hc) as (H3 & H4 & _).
    simpl. repeat (constructor; auto).
Qed.

Lemma forallb_ascii cs :
  Forall (λ c, c < 128) cs → forallb (λ c, c <? 128) cs = true.
Proof.
  induction 1 as [| c cs Hc _ IH]; [done |].
  simpl. rewrite IH. by apply Z.ltb_lt in Hc as ->.
Qed.

(** [urlsafe_b64decode] on an encoding followed by [k] pads runs the loop
    on the translated codes. *)
Lemma urlsafe_b64decode_chars pad bs k :
  Forall is_byte bs →
  urlsafe_b64decode (string_of_list_ascii (b64url_chars pad bs)
                     +:+ str_repeat "="%char k)
  = a2b_loop (wire pad bs ++ repeat BASE64_PAD k) 0 0 0 [].
Proof.
  intros Hbs. unfold urlsafe_b64decode, bytes_from_decode_data.
  rewrite codes_app, codes_of_chars, codes_str_repeat.
  rewrite forallb_ascii.
  - simpl. unfold a2b_base64, wire. rewrite fmap_app.
    do 2 f_equal. induction k as [| k IH]; [done |].
    cbn [repeat]. by rewrite fmap_cons, IH.
  - apply Forall_app. split; [by apply chars_ascii |].
    induction k; constructor; [done | done].
Qed.

(** The bytes of a segment come back through the script's padding and
    Python's decoder, whether or not the segment carried its padding. *)
Lemma segment_bytes_roundtrip bs :
  Forall is_byte bs →
  urlsafe_b64decode (add_padding (base64url bs)) = Ok bs
  ∧ urlsafe_b64decode (add_padding (urlsafe_b64encode bs)) = Ok bs.
Proof.
  intros Hbs. unfold add_padding, base64url, urlsafe_b64encode.
  rewrite !length_of_chars, !urlsafe_b64decode_chars by done.
  split.
  - by rewrite decode_wire_unpadded.
  - by rewrite decode_wire_padded.
Qed.

End Base64Facts.

(** ** The claims of the specification *)

Section Claims.

Context `{!PyLib}.

(** C1 (amended).  One guard surrounds the whole decode.  For every
    three-segment token whose header segment fails to decode, the failure
    is reported once with its traceback, the payload segment is not
    processed and no file is written, and the interpreter returns
    normally. *)
Theorem header_failure_ends_decoding tok verbose st h p s e :
  split_dot tok = [h; p; s] →
  decode_segment h = Err e →
  decode_jwt tok verbose st =
    (Ret (), add_out st [PrintF "✗ failed to decode JWT: " (FExn e); Traceback e])
  ∧ fs (decode_jwt tok verbose st).2 = fs st.
Proof.
  intros Hparts Hh.
  assert (Hrun : decode_jwt tok verbose st =
            (Ret (), add_out st [PrintF "✗ failed to decode JWT: " (FExn e);
                                 Traceback e])).
  { unfold decode_jwt, try_except. rewrite Hparts. simpl.
    unfold bind at 1, lift at 1. rewrite Hh.
    unfold bind, printf, print_exc, emit, add_out. simpl.
    by rewrite <- app_assoc. }
  by rewrite Hrun.
Qed.


(** C3 (amended).  The loader checks that the [evidence] field is there,
    not that it is not empty.  For an evidence file holding a JSON object:
    without the field the run ends with status 1 before any request; with
    the field mapped to the empty string the evidence is accepted and
    posted as it is. *)
Theorem empty_evidence_is_posted w verbose files content d :
  files !! "evidence.json" = Some content →
  json_loads content = Ok (JDict d) →
  (dict_lookup "evidence" d = None →
   exit_status (run w verbose files).1 = 1 ∧ posts (run w verbose files).2 = [])
  ∧ (dict_lookup "evidence" d = Some (JStr "") →
     posts (run w verbose files).2 = [the_request w (JStr "")]).
Proof.
  intros Hfile Hjson.
  pose proof (run_summary_ok w verbose files) as Hsum. cbv zeta in Hsum.
  unfold run_summary, load_evidence in Hsum. rewrite Hfile, Hjson in Hsum.
  simpl in Hsum. split; intros Hd; rewrite Hd in Hsum; simpl in Hsum.
  - by injection Hsum as -> _ ->.
  - destruct (service w (the_request w (JStr ""))) as [sc text | e];
      [destruct (sc =? 200) |]; by injection Hsum as _ _ ->.
Qed.

(** C4.  Round trip.  For every JSON value [v] and every serialization
    [bs] of it (bytes that decode to a text that parses to [v]), padding
    the base64url encoding of [bs] as the script does and decoding it gives
    [v] back, for an encoding without its padding, of any length, and for
    one with it. *)
Theorem segment_roundtrip (bs : list Z) (text : string) (v : json) :
  Forall is_byte bs →
  bytes_decode bs = Ok text →
  json_loads text = Ok v →
  decode_segment (Base64.base64url bs) = Ok v
  ∧ decode_segment (Base64.urlsafe_b64encode bs) = Ok v.
Proof.
  intros Hbs Htext Hv.
  destruct (Base64Facts.segment_bytes_roundtrip bs Hbs) as [Hu Hp].
  unfold decode_segment. rewrite Hu, Hp. simpl. rewrite Htext. simpl. by rewrite Hv.
Qed.


(** C6 (amended).  When the evidence file is missing, or holds valid JSON
    without the [evidence] key, the run ends with status 1 after a
    diagnostic, no request has been issued and no file is written.  The
    diagnostic is that of the class for a missing file and for a JSON
    object without the key; a JSON value that is not an object gets the
    general load failure with the [TypeError] of the subscript and its
    traceback. *)
Theorem input_error_before_network w verbose files :
  (files !! "evidence.json" = None
   ∨ ∃ content data, files !! "evidence.json" = Some content
                     ∧ json_loads content = Ok data
                     ∧ ∀ d, data = JDict d → dict_lookup "evidence" d = None) →
  exit_status (run w verbose files).1 = 1
  ∧ posts (run w verbose files).2 = []
  ∧ fs (run w verbose files).2 = files
  ∧ out (run w verbose files).2 =
      Print "read evidence file: evidence.json..."
      :: match files !! "evidence.json" with
         | None => [Print "✗ evidence.json file not found!"]
         | Some content =>
             match json_loads content with
             | Ok (JDict _) => [Print "✗ 'evidence' field not found in JSON!"]
             | _ => [ PrintF "✗ failed to load evidence: " (FExn TypeError);
                      Traceback TypeError ]
             end
         end.
Proof.
  intros [Hnone | (content & data & Hfile & Hjson & Hd)].
  - assert (Hload : load_evidence files = Err FileNotFoundError)
      by (unfold load_evidence; by rewrite Hnone).
    rewrite (run_load_failed w verbose files _ Hload), Hnone. by simpl.
  - destruct (isinstance_dict data) eqn:Hdict.
    + destruct data as [| | | | | | d]; try done.
      assert (Hload : load_evidence files = Err (KeyError "evidence")).
      { unfold load_evidence. rewrite Hfile, Hjson. simpl. by rewrite (Hd d eq_refl). }
      rewrite (run_load_failed w verbose files _ Hload), Hfile, Hjson. by simpl.
    + assert (Hload : load_evidence files = Err TypeError)
        by (unfold load_evidence; rewrite Hfile, Hjson; by destruct data).
      rewrite (run_load_failed w verbose files _ Hload), Hfile, Hjson.
      by destruct data.
Qed.

(** C7.  For every setting of the four identity fields, the request
    carries the [AAInstanceInfo] header exactly when one of them is not
    empty, and its value is then the JSON serialization of the fields that
    are not empty; when all four are empty the only header is the content
    type. *)
Theorem identity_header_iff_nonempty w verbose files rq :
  posts (run w verbose files).2 = [rq] →
  ((∃ v, In ("AAInstanceInfo", v) (headers rq))
   ↔ Exists (λ kv, kv.2 ≠ "") (identity_fields w))
  ∧ headers rq =
      ("Content-Type", "application/json")
      :: match nonempty_fields w with
         | [] => []
         | info => [("AAInstanceInfo", json_dumps (JDict info))]
         end.
Proof.
  intros Hposts.
  destruct (run_posted_inv _ _ _ _ Hposts) as (body & n & _ & _ & ->).
  split; [| apply the_request_headers].
  rewrite the_request_headers. unfold nonempty_fields, identity_fields.
  generalize (environ_get w "IMAGE_ID" ""), (environ_get w "INSTANCE_ID" ""),
    (environ_get w "INSTANCE_NAME" ""), (environ_get w "OWNER_ACCOUNT_ID" "").
  intros i1 i2 i3 i4. rewrite !Exists_cons, Exists_nil.
  destruct i1 as [| c1 i1], i2 as [| c2 i2], i3 as [| c3 i3], i4 as [| c4 i4];
    cbn; split;
    first [ intros _; (eexists; right; left; reflexivity)
          | intros _; intuition congruence
          | intros [v [Hv | []]]; congruence
          | intuition congruence ].
Qed.

(** C8 (amended).  For every three-segment token whose header segment
    decodes and whose payload segment decodes to a value without the path
    [submods.cpu0.ear.status], and, in verbose mode, whose header and
    payload can be dumped for the console, the interpreter writes the
    decoded payload, reports the failed lookup after the summary heading
    (the missing key for a [KeyError]) and returns normally. *)
Theorem missing_status_is_recovered tok verbose st h p s header payload e :
  split_dot tok = [h; p; s] →
  decode_segment h = Ok header →
  decode_segment p = Ok payload →
  dump_fails verbose header = false →
  dump_fails verbose payload = false →
  lookup_status payload = Err e →
  ∃ pre,
    decode_jwt tok verbose st =
      (Ret (),
       {| out := out st ++ pre
                 ++ Print "========== verification result =========="
                    :: summary_diagnostic e verbose;
          fs := <["jwt_payload.json" := json_dumps_indent payload]> (fs st);
          posts := posts st |}).
Proof.
  intros Hparts Hh Hp Hdh Hdp Hst.
  apply (decode_jwt_summary_raised tok verbose st h p s header payload e);
    try done.
  intros st'. by apply extract_summary_no_status.
Qed.

(** C9.  The padding step appends between one and four [=], which brings
    the length to a multiple of 4; a segment whose length is already a
    multiple of 4 gets four of them, not none.  The padded encoding of any
    bytes is such a segment, and the decoder accepts it with the four
    extra pads. *)
Theorem padding_appends_one_to_four (seg : string) (bs : list Z) :
  Forall is_byte bs →
  let n := Z.of_nat (String.length seg) in
  1 ≤ pad_count n ≤ 4
  ∧ (n + pad_count n) mod 4 = 0
  ∧ add_padding seg = seg +:+ str_repeat "="%char (Z.to_nat (pad_count n))
  ∧ (n mod 4 = 0 → add_padding seg = seg +:+ "====")
  ∧ add_padding (Base64.urlsafe_b64encode bs) = Base64.urlsafe_b64encode bs +:+ "===="
  ∧ Base64.urlsafe_b64decode (Base64.urlsafe_b64encode bs +:+ "====") = Ok bs.
Proof.
  intros Hbs n.
  assert (Hmod : 0 ≤ n mod 4 < 4) by (apply Z.mod_pos_bound; lia).
  split; [unfold pad_count; lia |].
  split.
  { unfold pad_count. rewrite <- Zplus_mod_idemp_l.
    replace (n mod 4 + (4 - n mod 4)) with (1 * 4) by lia. apply Z_mod_mult. }
  split; [done |].
  split; [intros Hn; unfold add_padding, pad_count; fold n; by rewrite Hn |].
  assert (Hpad : add_padding (Base64.urlsafe_b64encode bs)
                 = Base64.urlsafe_b64encode bs +:+ "====").
  { unfold add_padding, Base64.urlsafe_b64encode. f_equal.
    rewrite Base64Facts.length_of_chars.
    induction bs as [| a | a b | a b c bs IH] using Base64Facts.list_ind3;
      [done | done | done |].
    change (length (Base64.b64url_chars true (a :: b :: c :: bs)))
      with (S (S (S (S (length (Base64.b64url_chars true bs)))))).
    rewrite Base64Facts.pad_count_aligned_step. apply IH.
    by do 3 apply Forall_cons in Hbs as [_ Hbs]. }
  split; [done |]. rewrite <- Hpad.
  apply (Base64Facts.segment_bytes_roundtrip bs Hbs).
Qed.

(** C10 (amended).  The verbose flag reaches the files only through a
    failure of its own prints.  Two runs that differ only in the flag end
    with the same exit status, the same request and the same files other
    than [jwt_payload.json], the raw token among them; the verbose run
    either leaves [jwt_payload.json] as the quiet run does or leaves it as
    it was; and when the dumps of the decoded header and payload that only
    the verbose run makes do not raise, all the files are the same. *)
Theorem verbose_changes_the_payload_file_at_most w files :
  exit_status (run w true files).1 = exit_status (run w false files).1
  ∧ posts (run w true files).2 = posts (run w false files).2
  ∧ (∀ path, path ≠ "jwt_payload.json" →
       fs (run w true files).2 !! path = fs (run w false files).2 !! path)
  ∧ (fs (run w true files).2 !! "jwt_payload.json"
       = fs (run w false files).2 !! "jwt_payload.json"
     ∨ fs (run w true files).2 !! "jwt_payload.json" = files !! "jwt_payload.json")
  ∧ ((∀ rq text, posts (run w true files).2 = [rq] →
                 service w rq = Response 200 text →
                 verbose_dumps_ok text = true) →
     fs (run w true files).2 = fs (run w false files).2).
Proof.
  pose proof (run_summary_ok w true files) as Ht.
  pose proof (run_summary_ok w false files) as Hf.
  cbv zeta in Ht, Hf.
  destruct (run w true files) as [o1 st1], (run w false files) as [o2 st2].
  cbn [fst snd] in *. unfold run_summary in Ht, Hf.
  destruct (load_evidence files) as [body |].
  2: { injection Ht as -> -> ->. injection Hf as -> -> ->.
       split; [done |]. split; [done |]. split; [done |]. split; [by left | done]. }
  destruct (py_len body).
  2: { injection Ht as -> -> ->. injection Hf as -> -> ->.
       split; [done |]. split; [done |]. split; [done |]. split; [by left | done]. }
  cbv zeta in Ht, Hf.
  destruct (service w (the_request w body)) as [sc text | e] eqn:Hsvc.
  2: { injection Ht as -> -> ->. injection Hf as -> -> ->.
       split; [done |]. split; [done |]. split; [done |]. split; [by left | done]. }
  destruct (sc =? 200) eqn:Hsc.
  2: { injection Ht as -> -> ->. injection Hf as -> -> ->.
       split; [done |]. split; [done |]. split; [done |]. split; [by left | done]. }
  apply Z.eqb_eq in Hsc as ->.
  injection Ht as -> -> ->. injection Hf as -> -> ->.
  split; [done |]. split; [done |]. split; [| split].
  - intros path Hpath.
    destruct (decide (path = "jwt_token.txt")) as [-> | Htok];
      [by rewrite !lookup_insert_eq |].
    rewrite !lookup_insert_ne by done. by rewrite !decode_jwt_files_frame.
  - rewrite !lookup_insert_ne by done. unfold decode_jwt_files.
    destruct (written_payload text true) as [payload |] eqn:Hw; [| by right].
    left. by rewrite (written_payload_verbose _ _ Hw).
  - intros Hok. unfold decode_jwt_files.
    by rewrite (written_payload_dumps_ok text (Hok _ _ eq_refl Hsvc)).
Qed.

End Claims.

(** ** The claims on concrete runs *)

Section Examples.

#[local] Existing Instance Demo.lib.

(** The model on values that are easy to check by hand. *)
Example encode_braces :
  Base64.urlsafe_b64encode (Demo.ascii_bytes "{}") = "e30="
  ∧ Base64.base64url (Demo.ascii_bytes "{}") = "e30".
Proof. split; reflexivity. Qed.

Example encode_high_bytes :
  Base64.urlsafe_b64encode [255; 254; 253; 252; 251] = "__79_Ps=".
Proof. reflexivity. Qed.

Example decode_high_bytes :
  Base64.urlsafe_b64decode "__79_Ps=" = Ok [255; 254; 253; 252; 251]
  ∧ Base64.urlsafe_b64decode "//79/Ps=" = Ok [255; 254; 253; 252; 251].
Proof. vm_compute. split; reflexivity. Qed.

Example decode_excess_padding :
  Base64.urlsafe_b64decode "e30=====" = Ok (Demo.ascii_bytes "{}").
Proof. vm_compute. reflexivity. Qed.

Example decode_one_character : Base64.urlsafe_b64decode "A===" = Err BinasciiError.
Proof. vm_compute. reflexivity. Qed.

Example decode_missing_padding : Base64.urlsafe_b64decode "e30" = Err BinasciiError.
Proof. vm_compute. reflexivity. Qed.

Example split_dot_examples :
  split_dot "a.b.c" = ["a"; "b"; "c"]
  ∧ split_dot "a..b" = ["a"; ""; "b"]
  ∧ split_dot "" = [""]
  ∧ split_dot "abc." = ["abc"; ""].
Proof. repeat split; reflexivity. Qed.

Example quiet_run_transcript :
  out (run (Demo.accepting "e30.e30.sig") false Demo.empty_evidence_dir).2 =
    [ Print "read evidence file: evidence.json...";
      PrintF "  - Evidence base64 length: " (FInt 0);
      Print "  - use Policy ID: tapp";
      Print (nl +:+ "send verification request...");
      PrintF "HTTP status code: " (FInt 200);
      Print "✓ TDX quote verification succeeded!";
      Print "";
      Print "========== verification result ==========";
      PrintF "✗ JWT payload missing expected fields: " (FExn (KeyError "submods"));
      Print (nl +:+ "✓ JWT token is saved to jwt_token.txt") ].
Proof. vm_compute. reflexivity. Qed.

Lemma codes_are_bytes s : Forall is_byte (Base64.codes s).
Proof.
  unfold Base64.codes. induction s as [| c s IH]; [constructor |].
  cbn [list_ascii_of_string]. rewrite fmap_cons. constructor; [| done].
  unfold is_byte, Base64.code. pose proof (N_ascii_bounded c). lia.
Qed.

(** C1 fails as stated: the header [A] is not base64, the payload segment
    [e30] decodes to the empty object, and no payload file is written. *)
Lemma header_failure_leaves_payload_unwritten :
  split_dot "A.e30.sig" = ["A"; "e30"; "sig"]
  ∧ decode_segment "A" = Err BinasciiError
  ∧ decode_segment "e30" = Ok (JDict [])
  ∧ fs (decode_jwt "A.e30.sig" false st0).2 !! "jwt_payload.json" = None.
Proof. vm_compute. repeat split; reflexivity. Qed.

Lemma header_failure_ends_decoding_witness :
  split_dot "A.e30.sig" = ["A"; "e30"; "sig"]
  ∧ decode_segment "A" = Err BinasciiError
  ∧ decode_jwt "A.e30.sig" true st0 =
      (Ret (), add_out st0 [PrintF "✗ failed to decode JWT: " (FExn BinasciiError);
                            Traceback BinasciiError])
  ∧ fs (decode_jwt "A.e30.sig" true st0).2 = fs st0.
Proof.
  split; [reflexivity |]. split; [vm_compute; reflexivity |].
  apply (header_failure_ends_decoding "A.e30.sig" true st0 "A" "e30" "sig" BinasciiError);
    [reflexivity | vm_compute; reflexivity].
Defined.



(** C3 fails as stated: the evidence file maps [evidence] to the empty
    string, and the run posts it and ends with status 0. *)
Lemma empty_evidence_is_not_rejected :
  Demo.empty_evidence_dir !! "evidence.json" = Some Demo.empty_evidence_text
  ∧ json_loads Demo.empty_evidence_text = Ok (JDict [("evidence", JStr "")])
  ∧ posts (run (Demo.accepting "e30.e30.sig") false Demo.empty_evidence_dir).2
    = [the_request (Demo.accepting "e30.e30.sig") (JStr "")]
  ∧ exit_status (run (Demo.accepting "e30.e30.sig") false Demo.empty_evidence_dir).1 = 0.
Proof. vm_compute. repeat split; reflexivity. Qed.

Lemma empty_evidence_is_posted_witness :
  Demo.empty_evidence_dir !! "evidence.json" = Some Demo.empty_evidence_text
  ∧ json_loads Demo.empty_evidence_text = Ok (JDict [("evidence", JStr "")])
  ∧ dict_lookup "evidence" [("evidence", JStr "")] = Some (JStr "")
  ∧ posts (run (Demo.accepting "e30.e30.sig") false Demo.empty_evidence_dir).2
    = [the_request (Demo.accepting "e30.e30.sig") (JStr "")]
  ∧ Demo.no_key_dir !! "evidence.json" = Some "{}"
  ∧ json_loads "{}" = Ok (JDict [])
  ∧ dict_lookup "evidence" [] = None
  ∧ exit_status (run (Demo.accepting "e30.e30.sig") false Demo.no_key_dir).1 = 1
  ∧ posts (run (Demo.accepting "e30.e30.sig") false Demo.no_key_dir).2 = [].
Proof.
  split; [vm_compute; reflexivity |]. split; [vm_compute; reflexivity |].
  split; [reflexivity |].
  split.
  { apply (empty_evidence_is_posted (Demo.accepting "e30.e30.sig") false
             Demo.empty_evidence_dir Demo.empty_evidence_text [("evidence", JStr "")]);
      [vm_compute; reflexivity | vm_compute; reflexivity | reflexivity]. }
  split; [vm_compute; reflexivity |]. split; [reflexivity |]. split; [reflexivity |].
  apply (empty_evidence_is_posted (Demo.accepting "e30.e30.sig") false
           Demo.no_key_dir "{}" []);
    [vm_compute; reflexivity | reflexivity | reflexivity].
Defined.

Lemma segment_roundtrip_witness :
  Forall is_byte (Demo.ascii_bytes "[1,2]")
  ∧ bytes_decode (Demo.ascii_bytes "[1,2]") = Ok "[1,2]"
  ∧ json_loads "[1,2]" = Ok (JList [JInt 1; JInt 2])
  ∧ decode_segment (Base64.base64url (Demo.ascii_bytes "[1,2]"))
    = Ok (JList [JInt 1; JInt 2])
  ∧ decode_segment (Base64.urlsafe_b64encode (Demo.ascii_bytes "[1,2]"))
    = Ok (JList [JInt 1; JInt 2]).
Proof.
  split; [apply codes_are_bytes |]. split; [vm_compute; reflexivity |].
  split; [reflexivity |].
  apply (segment_roundtrip (Demo.ascii_bytes "[1,2]") "[1,2]" (JList [JInt 1; JInt 2]));
    [apply codes_are_bytes | vm_compute; reflexivity | reflexivity].
Defined.


(** C6 fails as stated: [[1,2]] is valid JSON without the [evidence]
    key, and the run on it ends with the general load failure, the
    [TypeError] of the subscript and its traceback, not with the
    diagnostic of the missing field. *)
Lemma non_object_evidence_is_a_load_failure :
  Extra.list_dir !! "evidence.json" = Some "[1,2]"
  ∧ json_loads "[1,2]" = Ok (JList [JInt 1; JInt 2])
  ∧ out (run Demo.rejecting false Extra.list_dir).2 =
      [ Print "read evidence file: evidence.json...";
        PrintF "✗ failed to load evidence: " (FExn TypeError);
        Traceback TypeError ]
  ∧ ¬ In (Print "✗ 'evidence' field not found in JSON!")
         (out (run Demo.rejecting false Extra.list_dir).2)
  ∧ exit_status (run Demo.rejecting false Extra.list_dir).1 = 1
  ∧ posts (run Demo.rejecting false Extra.list_dir).2 = [].
Proof.
  split; [vm_compute; reflexivity |]. split; [reflexivity |].
  split; [vm_compute; reflexivity |].
  split; [| split; vm_compute; reflexivity].
  vm_compute. intros [H | [H | [H | []]]]; discriminate H.
Qed.

Lemma input_error_before_network_witness :
  (Demo.empty_dir !! "evidence.json" = None
   ∧ exit_status (run Demo.rejecting false Demo.empty_dir).1 = 1
   ∧ posts (run Demo.rejecting false Demo.empty_dir).2 = []
   ∧ fs (run Demo.rejecting false Demo.empty_dir).2 = Demo.empty_dir
   ∧ out (run Demo.rejecting false Demo.empty_dir).2 =
       Print "read evidence file: evidence.json..."
       :: match Demo.empty_dir !! "evidence.json" with
          | None => [Print "✗ evidence.json file not found!"]
          | Some content =>
              match json_loads content with
              | Ok (JDict _) => [Print "✗ 'evidence' field not found in JSON!"]
              | _ => [ PrintF "✗ failed to load evidence: " (FExn TypeError);
                       Traceback TypeError ]
              end
          end)
  ∧ (Demo.no_key_dir !! "evidence.json" = Some "{}"
     ∧ json_loads "{}" = Ok (JDict [])
     ∧ dict_lookup "evidence" [] = None
     ∧ exit_status (run Demo.rejecting false Demo.no_key_dir).1 = 1
     ∧ posts (run Demo.rejecting false Demo.no_key_dir).2 = []
     ∧ fs (run Demo.rejecting false Demo.no_key_dir).2 = Demo.no_key_dir
     ∧ out (run Demo.rejecting false Demo.no_key_dir).2 =
       Print "read evidence file: evidence.json..."
       :: match Demo.no_key_dir !! "evidence.json" with
          | None => [Print "✗ evidence.json file not found!"]
          | Some content =>
              match json_loads content with
              | Ok (JDict _) => [Print "✗ 'evidence' field not found in JSON!"]
              | _ => [ PrintF "✗ failed to load evidence: " (FExn TypeError);
                       Traceback TypeError ]
              end
          end)
  ∧ (Extra.list_dir !! "evidence.json" = Some "[1,2]"
     ∧ json_loads "[1,2]" = Ok (JList [JInt 1; JInt 2])
     ∧ exit_status (run Demo.rejecting false Extra.list_dir).1 = 1
     ∧ posts (run Demo.rejecting false Extra.list_dir).2 = []
     ∧ fs (run Demo.rejecting false Extra.list_dir).2 = Extra.list_dir
     ∧ out (run Demo.rejecting false Extra.list_dir).2 =
       Print "read evidence file: evidence.json..."
       :: match Extra.list_dir !! "evidence.json" with
          | None => [Print "✗ evidence.json file not found!"]
          | Some content =>
              match json_loads content with
              | Ok (JDict _) => [Print "✗ 'evidence' field not found in JSON!"]
              | _ => [ PrintF "✗ failed to load evidence: " (FExn TypeError);
                       Traceback TypeError ]
              end
          end).
Proof.
  split; [| split].
  - split; [reflexivity |].
    apply (input_error_before_network Demo.rejecting false Demo.empty_dir).
    left. reflexivity.
  - split; [vm_compute; reflexivity |]. split; [reflexivity |]. split; [reflexivity |].
    apply (input_error_before_network Demo.rejecting false Demo.no_key_dir).
    right. exists "{}", (JDict []). split; [vm_compute; reflexivity |].
    split; [reflexivity |]. intros d [= <-]. reflexivity.
  - split; [vm_compute; reflexivity |]. split; [reflexivity |].
    apply (input_error_before_network Demo.rejecting false Extra.list_dir).
    right. exists "[1,2]", (JList [JInt 1; JInt 2]). split; [vm_compute; reflexivity |].
    split; [reflexivity |]. intros d [=].
Defined.

Lemma identity_header_iff_nonempty_witness :
  posts (run Demo.rejecting false Demo.empty_evidence_dir).2
    = [the_request Demo.rejecting (JStr "")]
  ∧ ((∃ v, In ("AAInstanceInfo", v) (headers (the_request Demo.rejecting (JStr ""))))
     ↔ Exists (λ kv, kv.2 ≠ "") (identity_fields Demo.rejecting))
  ∧ headers (the_request Demo.rejecting (JStr "")) =
      ("Content-Type", "application/json")
      :: match nonempty_fields Demo.rejecting with
         | [] => []
         | info => [("AAInstanceInfo", json_dumps (JDict info))]
         end.
Proof.
  split; [vm_compute; reflexivity |].
  apply (identity_header_iff_nonempty Demo.rejecting false Demo.empty_evidence_dir
           (the_request Demo.rejecting (JStr ""))).
  vm_compute; reflexivity.
Defined.

Lemma missing_status_is_recovered_witness :
  split_dot "e30.e30.sig" = ["e30"; "e30"; "sig"]
  ∧ decode_segment "e30" = Ok (JDict [])
  ∧ dump_fails true (JDict []) = false
  ∧ lookup_status (JDict []) = Err (KeyError "submods")
  ∧ ∃ pre,
      decode_jwt "e30.e30.sig" true st0 =
        (Ret (),
         {| out := out st0 ++ pre
                   ++ Print "========== verification result =========="
                      :: summary_diagnostic (KeyError "submods") true;
            fs := <["jwt_payload.json" := json_dumps_indent (JDict [])]> (fs st0);
            posts := posts st0 |}).
Proof.
  split; [reflexivity |]. split; [vm_compute; reflexivity |]. split; [reflexivity |].
  split; [reflexivity |].
  apply (missing_status_is_recovered "e30.e30.sig" true st0 "e30" "e30" "sig"
           (JDict []) (JDict []) (KeyError "submods"));
    [reflexivity | vm_compute; reflexivity | vm_compute; reflexivity
    | reflexivity | reflexivity | reflexivity].
Defined.

Lemma verbose_changes_the_payload_file_at_most_witness :
  (∀ rq text,
     posts (run (Demo.accepting "e30.e30.sig") true Demo.empty_evidence_dir).2 = [rq] →
     service (Demo.accepting "e30.e30.sig") rq = Response 200 text →
     verbose_dumps_ok text = true)
  ∧ fs (run (Demo.accepting "e30.e30.sig") true Demo.empty_evidence_dir).2
    = fs (run (Demo.accepting "e30.e30.sig") false Demo.empty_evidence_dir).2.
Proof.
  assert (Hok : ∀ rq text,
            posts (run (Demo.accepting "e30.e30.sig") true Demo.empty_evidence_dir).2
              = [rq] →
            service (Demo.accepting "e30.e30.sig") rq = Response 200 text →
            verbose_dumps_ok text = true).
  { intros rq text _ [= <-]. vm_compute. reflexivity. }
  split; [exact Hok |].
  apply (verbose_changes_the_payload_file_at_most
           (Demo.accepting "e30.e30.sig") Demo.empty_evidence_dir).
  exact Hok.
Defined.

Lemma padding_appends_one_to_four_witness :
  Forall is_byte (Demo.ascii_bytes "{}")
  ∧ 1 ≤ pad_count 4 ≤ 4
  ∧ (4 + pad_count 4) mod 4 = 0
  ∧ add_padding "e30=" = "e30=" +:+ str_repeat "="%char (Z.to_nat (pad_count 4))
  ∧ (4 mod 4 = 0 → add_padding "e30=" = "e30=" +:+ "====")
  ∧ add_padding (Base64.urlsafe_b64encode (Demo.ascii_bytes "{}"))
    = Base64.urlsafe_b64encode (Demo.ascii_bytes "{}") +:+ "===="
  ∧ Base64.urlsafe_b64decode (Base64.urlsafe_b64encode (Demo.ascii_bytes "{}") +:+ "====")
    = Ok (Demo.ascii_bytes "{}").
Proof.
  split; [apply codes_are_bytes |].
  apply (padding_appends_one_to_four "e30=" (Demo.ascii_bytes "{}")).
  apply codes_are_bytes.
Defined.

End Examples.

(** ** Further properties of the script *)

Section Further.

Context `{!PyLib}.

(** X1.  A request that raises ends the run with status 1 after the
    diagnostic of its class and its traceback, and no file is written
    (lines 78-80 and 106-115). *)
Theorem network_failure_is_fatal w verbose files rq e :
  posts (run w verbose files).2 = [rq] →
  service w rq = PostRaises e →
  exit_status (run w verbose files).1 = 1
  ∧ fs (run w verbose files).2 = files
  ∧ ∃ pre, out (run w verbose files).2 =
           pre ++ [ PrintF (match e with
                            | RequestException => "✗ request error: "
                            | _ => "✗ error: "
                            end) (FExn e);
                    Traceback e ].
Proof.
  intros Hposts Hsvc.
  destruct (run_posted_inv _ _ _ _ Hposts) as (body & n & Hload & Hlen & ->).
  rewrite (run_post_raises w verbose files body n e Hload Hlen Hsvc).
  simpl. split; [done |]. split; [done |].
  exists (preamble w n ++ [Print (nl +:+ "send verification request...")]).
  rewrite <- app_assoc. by destruct e.
Qed.

(** X2.  An [evidence] field that holds null, a boolean or a number has no
    length: line 47 raises a [TypeError] outside every [try], so the run
    ends with status 1 before any request, without a diagnostic of the
    script. *)
Theorem evidence_without_length_crashes w verbose files content d v :
  files !! "evidence.json" = Some content →
  json_loads content = Ok (JDict d) →
  dict_lookup "evidence" d = Some v →
  match v with
  | JNull | JBool _ | JInt _ | JFloat _ => True
  | JStr _ | JList _ | JDict _ => False
  end →
  run w verbose files =
    (Raise TypeError,
     {| out := [Print "read evidence file: evidence.json..."];
        fs := files; posts := [] |})
  ∧ exit_status (run w verbose files).1 = 1.
Proof.
  intros Hfile Hjson Hd Hv.
  assert (Hload : load_evidence files = Ok v).
  { unfold load_evidence. rewrite Hfile, Hjson. simpl. by rewrite Hd. }
  assert (Hlen : py_len v = Err TypeError) by (by destruct v).
  by rewrite (run_len_failed w verbose files v TypeError Hload Hlen).
Qed.

(** X3.  An evidence file that is not JSON, or whose JSON value is not an
    object, ends the run with status 1 before any request, after the
    general load diagnostic and the traceback (lines 41-45). *)
Theorem unreadable_evidence_is_fatal w verbose files content :
  files !! "evidence.json" = Some content →
  (json_loads content = Err JSONDecodeError
   ∨ ∃ data, json_loads content = Ok data ∧ isinstance_dict data = false) →
  run w verbose files =
    (Exit 1,
     {| out := [ Print "read evidence file: evidence.json...";
                 PrintF "✗ failed to load evidence: "
                   (FExn (match json_loads content with
                          | Ok _ => TypeError
                          | Err e => e
                          end));
                 Traceback (match json_loads content with
                            | Ok _ => TypeError
                            | Err e => e
                            end) ];
        fs := files; posts := [] |}).
Proof.
  intros Hfile [Hjson | (data & Hjson & Hdata)].
  - assert (Hload : load_evidence files = Err JSONDecodeError)
      by (unfold load_evidence; by rewrite Hfile, Hjson).
    by rewrite (run_load_failed w verbose files _ Hload), Hjson.
  - assert (Hload : load_evidence files = Err TypeError)
      by (unfold load_evidence; rewrite Hfile, Hjson; by destruct data).
    by rewrite (run_load_failed w verbose files _ Hload), Hjson.
Qed.

(** X4.  The request a run issues goes to the fixed URL without
    certificate verification, and its body carries the value of the
    [evidence] field as it was loaded, under [tee] [tdx], and the policy id
    of the environment, [tapp] when [POLICY_ID] is not set (lines 21, 27,
    51-57 and 80). *)
Theorem request_carries_the_loaded_evidence w verbose files rq :
  posts (run w verbose files).2 = [rq] →
  ∃ content data body,
    files !! "evidence.json" = Some content
    ∧ json_loads content = Ok data
    ∧ py_getitem data "evidence" = Ok body
    ∧ url rq = "http://localhost:8081/api/attestation-service/attestation"
    ∧ verify rq = false
    ∧ json_body rq =
        JDict [ ("verification_requests",
                 JList [ JDict [ ("tee", JStr "tdx"); ("evidence", body) ] ]);
                ("policy_ids",
                 JList [ JStr (default "tapp" (environ w !! "POLICY_ID")) ]) ].
Proof.
  intros Hposts.
  destruct (run_posted_inv _ _ _ _ Hposts) as (body & n & Hload & _ & ->).
  unfold load_evidence in Hload.
  destruct (files !! "evidence.json") as [content |]; [| done].
  destruct (json_loads content) as [data |] eqn:Hjson; [| done].
  exists content, data, body. by repeat split.
Qed.

(** X5.  No run issues more than one request: there is no retry on any
    path (lines 78-115). *)
Theorem at_most_one_request w verbose files :
  (length (posts (run w verbose files).2) ≤ 1)%nat.
Proof.
  pose proof (run_summary_ok w verbose files) as Hsum. cbv zeta in Hsum.
  assert (Hp : posts (run w verbose files).2 = (run_summary w verbose files).2)
    by (by rewrite <- Hsum).
  rewrite Hp. unfold run_summary.
  destruct (load_evidence files) as [body |]; [| simpl; lia].
  destruct (py_len body); [| simpl; lia].
  cbv zeta. destruct (service w (the_request w body)) as [sc text |];
    [destruct (sc =? 200) |]; simpl; lia.
Qed.


(** X7.  Whatever happens, a run changes no file other than
    [jwt_token.txt] and [jwt_payload.json]; the evidence file in
    particular is left as it was. *)
Theorem other_files_are_untouched w verbose files path :
  path ≠ "jwt_token.txt" →
  path ≠ "jwt_payload.json" →
  fs (run w verbose files).2 !! path = files !! path.
Proof.
  intros Htok Hpay. rewrite run_fs_summary. by apply run_summary_frame.
Qed.


(** X9.  Running the script again on the files a run has left gives the
    same files, when the second run has the verbosity of the first or is
    the verbose one: the two outputs are overwritten with what they
    hold. *)
Theorem rerun_leaves_the_same_files w verbose verbose' files :
  (verbose = true → verbose' = true) →
  fs (run w verbose' (fs (run w verbose files).2)).2 = fs (run w verbose files).2.
Proof.
  intros Hv. rewrite !run_fs_summary.
  assert (Hev : load_evidence ((run_summary w verbose files).1.2) = load_evidence files).
  { unfold load_evidence. by rewrite run_summary_frame. }
  unfold run_summary at 1. rewrite Hev.
  unfold run_summary.
  destruct (load_evidence files) as [body |]; [| done].
  destruct (py_len body); [| done].
  cbv zeta. destruct (service w (the_request w body)) as [sc text |]; [| done].
  destruct (sc =? 200); [| done]. cbn [fst snd].
  assert (Hw : ∀ payload, written_payload text verbose' = Some payload →
                          written_payload text verbose = Some payload).
  { intros payload. destruct verbose.
    - by rewrite (Hv eq_refl).
    - destruct verbose'; [apply written_payload_verbose | done]. }
  unfold decode_jwt_files.
  destruct (written_payload text verbose') as [payload |];
    [rewrite (Hw payload eq_refl) | by rewrite insert_insert_eq].
  apply map_eq. intros k.
  destruct (decide (k = "jwt_token.txt")) as [-> | Hk1];
    [by rewrite !lookup_insert_eq |].
  rewrite !(lookup_insert_ne _ "jwt_token.txt") by done.
  destruct (decide (k = "jwt_payload.json")) as [-> | Hk2];
    [by rewrite !lookup_insert_eq |].
  rewrite !(lookup_insert_ne _ "jwt_payload.json") by done.
  by rewrite !lookup_insert_ne by done.
Qed.

End Further.

(** ** The interpreter on well-formed entries *)

Section Loops.

Context `{!PyLib}.

Lemma start_app_step_plain log found st :
  plain_entry log = true →
  (is_start_app log = true → json_dumps_indent_error (entry_details log) = None) →
  start_app_step log found st =
    (Ret (found || is_start_app log),
     add_out st (if is_start_app log
                 then [Print (json_dumps_indent (entry_details log))]
                 else [])).
Proof.
  intros Hplain. destruct log as [| | | | | | l]; try done.
  unfold start_app_step, is_start_app, entry_data, entry_details, py_contains2,
    plain_entry, dumps_indent in *.
  unfold bind, lift, print, emit, ret. cbn.
  destruct (dict_lookup "details" l) as [details |] eqn:Hdet; cbn.
  2: { rewrite add_out_nil. by rewrite orb_false_r. }
  destruct details as [| | | | | | d]; try done. cbn.
  destruct (dict_lookup "data" d) as [data |] eqn:Hdata; cbn.
  2: { rewrite add_out_nil. by rewrite orb_false_r. }
  destruct data as [| | | | | | dd]; cbn;
    try (rewrite add_out_nil; by rewrite orb_false_r).
  destruct (dict_lookup "operation" dd) as [op |]; cbn;
    [destruct (py_eq_str op "start_app") |]; cbn;
    rewrite ?add_out_nil, ?orb_false_r, ?orb_true_r; try done.
  intros Hdump. by rewrite (Hdump eq_refl).
Qed.

Lemma cryptpilot_step_plain log found st :
  plain_entry log = true →
  (is_cryptpilot log = true →
   Forall (λ v, print_refuses v = None) (cryptpilot_values log)) →
  cryptpilot_step log found st =
    (Ret (found || is_cryptpilot log),
     add_out st (if is_cryptpilot log then cryptpilot_lines log else [])).
Proof.
  intros Hplain. destruct log as [| | | | | | l]; try done.
  unfold cryptpilot_step, is_cryptpilot, cryptpilot_lines, cryptpilot_values,
    entry_data, entry_details, py_contains2, plain_entry, print_value in *.
  unfold bind, lift, print, printf, emit, ret. cbn.
  destruct (dict_lookup "details" l) as [details |] eqn:Hdet; cbn.
  2: { rewrite add_out_nil. by rewrite orb_false_r. }
  destruct details as [| | | | | | d]; try done. cbn.
  destruct (dict_lookup "data" d) as [data |] eqn:Hdata; cbn.
  2: { rewrite add_out_nil. by rewrite orb_false_r. }
  destruct data as [| | | | | | dd]; cbn;
    try (rewrite add_out_nil; by rewrite orb_false_r).
  destruct (dict_lookup "domain" dd) as [dom |]; cbn;
    [destruct (py_eq_str dom "cryptpilot.alibabacloud.com") |]; cbn;
    rewrite ?add_out_nil, ?orb_false_r, ?orb_true_r; try done.
  intros Hok. specialize (Hok eq_refl).
  apply Forall_cons in Hok as [Hop Hok]. apply Forall_cons in Hok as [Hcontent _].
  unfold add_out.
  destruct (dict_lookup "operation" dd), (dict_lookup "content" dd); cbn in *;
    repeat (progress (rewrite ?Hop, ?Hcontent; cbn)); by rewrite <- !app_assoc.
Qed.

(** A loop whose steps only print and update the flag prints the lines of
    the selected entries in order. *)
Lemma for_each_selected (step : json → bool → M bool) (sel : json → bool)
    (lines : json → list line) (ok : json → Prop) logs :
  (∀ log found st, plain_entry log = true → (sel log = true → ok log) →
     step log found st =
       (Ret (found || sel log), add_out st (if sel log then lines log else []))) →
  forallb plain_entry logs = true →
  Forall (λ log, sel log = true → ok log) logs →
  ∀ found st,
    for_each logs found step st =
      (Ret (found || existsb sel logs),
       add_out st (concat (lines <$> List.filter sel logs))).
Proof.
  intros Hstep. induction logs as [| log logs IH]; intros Hplain Hok found st.
  - cbn. rewrite add_out_nil. by rewrite orb_false_r.
  - cbn in Hplain. apply andb_true_iff in Hplain as [Hlog Hlogs].
    apply Forall_cons in Hok as [Hoklog Hoklogs].
    cbn [for_each]. unfold bind. rewrite (Hstep _ _ _ Hlog Hoklog), (IH Hlogs Hoklogs).
    rewrite add_out_app. cbn [existsb List.filter]. rewrite orb_assoc.
    destruct (sel log); [| done].
    by rewrite fmap_cons.
Qed.

End Loops.

Section FurtherInterpreter.

Context `{!PyLib}.

(** X10.  Whatever the token is, [decode_jwt] returns normally: it raises
    nothing and ends no process, it only adds to the console, it issues no
    request, and the only file it may write is [jwt_payload.json]
    (lines 117-218). *)
Theorem decode_jwt_always_returns tok verbose st :
  (decode_jwt tok verbose st).1 = Ret ()
  ∧ (∃ ls, out (decode_jwt tok verbose st).2 = out st ++ ls)
  ∧ posts (decode_jwt tok verbose st).2 = posts st
  ∧ (fs (decode_jwt tok verbose st).2 = fs st
     ∨ ∃ payload, fs (decode_jwt tok verbose st).2
                  = <["jwt_payload.json" := json_dumps_indent payload]> (fs st)).
Proof.
  destruct (decode_jwt_run tok verbose st) as [ls ->]. cbn [fst snd out fs posts].
  split; [done |]. split; [by exists ls |]. split; [done |].
  unfold decode_jwt_files.
  destruct (written_payload tok verbose) as [payload |]; [| by left].
  right. by exists payload.
Qed.

(** X11.  When the header decodes and the payload segment does not, the
    header is still shown in verbose mode, provided its dump does not
    raise; the failure of the payload is reported with its traceback, and
    nothing is written (lines 126-140 and 215-218). *)
Theorem payload_failure_ends_decoding tok verbose st h p s header e :
  split_dot tok = [h; p; s] →
  decode_segment h = Ok header →
  dump_fails verbose header = false →
  decode_segment p = Err e →
  decode_jwt tok verbose st =
    (Ret (),
     add_out st
       ((if verbose
         then [ Print "========== JWT Header ==========";
                Print (json_dumps_indent header); Print "" ]
         else [])
        ++ [PrintF "✗ failed to decode JWT: " (FExn e); Traceback e]))
  ∧ fs (decode_jwt tok verbose st).2 = fs st.
Proof.
  intros Hparts Hh Hdh Hp.
  by rewrite (decode_jwt_payload_error _ _ _ _ _ _ _ _ Hparts Hh Hdh Hp).
Qed.

(** X12.  The format check of lines 120-123 counts dots: a token has one
    segment more than it has dots, so it is taken as well formed exactly
    when it has two dots, empty segments included, and reported as
    invalid otherwise. *)
Theorem format_check_counts_dots tok verbose st :
  length (split_dot tok) = S (count_dots tok)
  ∧ (count_dots tok = 2%nat ↔ ∃ h p s, split_dot tok = [h; p; s])
  ∧ (count_dots tok ≠ 2%nat →
     decode_jwt tok verbose st = (Ret (), add_out st [Print "✗ invalid JWT format"])).
Proof.
  assert (Hlen : length (split_dot tok) = S (count_dots tok)).
  { induction tok as [| c tok IH]; [done |].
    cbn [split_dot count_dots]. destruct (Ascii.eqb c "."%char).
    - cbn. by rewrite IH.
    - destruct (split_dot tok) as [| p ps]; [done |]. cbn in *. lia. }
  split; [done |]. split.
  - split.
    + intros H2. rewrite H2 in Hlen.
      destruct (split_dot tok) as [| h [| p [| s [| x parts]]]]; try done.
      by exists h, p, s.
    + intros (h & p & s & Hparts). rewrite Hparts in Hlen. cbn in Hlen. lia.
  - intros Hdots. apply decode_jwt_bad_format. lia.
Qed.

(** X13.  The summary of a payload with a status and a trust vector and
    no annotated evidence, when the console takes the values it prints:
    the status, then the three dimensions of the vector, each with [N/A]
    when the vector does not have it (lines 158-168). *)
Theorem summary_of_trust_vector payload verbose st submods c status tv :
  py_getitem payload "submods" = Ok submods →
  py_getitem submods "cpu0" = Ok (JDict c) →
  dict_lookup "ear.status" c = Some status →
  dict_lookup "ear.trustworthiness-vector" c = Some (JDict tv) →
  dict_lookup "ear.veraison.annotated-evidence" c = None →
  Forall (λ v, print_refuses v = None)
    [ status;
      default (JStr "N/A") (dict_lookup "configuration" tv);
      default (JStr "N/A") (dict_lookup "executables" tv);
      default (JStr "N/A") (dict_lookup "file-system" tv) ] →
  extract_summary payload verbose st =
    (Ret (),
     add_out st
       [ PrintF "verification status: " (FVal status);
         Print (nl +:+ "trustworthiness vector:");
         PrintF "  - configuration: "
           (FVal (default (JStr "N/A") (dict_lookup "configuration" tv)));
         PrintF "  - executables: "
           (FVal (default (JStr "N/A") (dict_lookup "executables" tv)));
         PrintF "  - file-system: "
           (FVal (default (JStr "N/A") (dict_lookup "file-system" tv))) ]).
Proof.
  intros Hsub Hcpu Hstatus Hvec Hev Hok.
  apply Forall_cons in Hok as [Hs Hok]. apply Forall_cons in Hok as [H1 Hok].
  apply Forall_cons in Hok as [H2 Hok]. apply Forall_cons in Hok as [H3 _].
  unfold extract_summary, print_value.
  unfold bind, lift, when, print, printf, emit, ret, add_out.
  repeat (progress (rewrite ?Hsub, ?Hcpu, ?Hstatus, ?Hvec, ?Hev, ?Hs; cbn)).
  destruct (dict_lookup "configuration" tv), (dict_lookup "executables" tv),
    (dict_lookup "file-system" tv); cbn in *;
    repeat (progress (rewrite ?H1, ?H2, ?H3; cbn)); by rewrite <- ?app_assoc.
Qed.

(** X14.  The summary of a payload whose annotated evidence has event
    logs that are plain entries, and neither vector nor quote, when the
    dumps of the details it shows do not raise and the console takes the
    values it prints: after the status, the details of every entry whose
    data has the operation [start_app], in their order, or the line that
    none was found; in verbose mode the same follows for the entries of
    the Cryptpilot domain, with operation and content or [N/A]
    (lines 171-205). *)
Theorem summary_of_event_logs payload verbose st submods c status ev t logs :
  py_getitem payload "submods" = Ok submods →
  py_getitem submods "cpu0" = Ok (JDict c) →
  dict_lookup "ear.status" c = Some status →
  dict_lookup "ear.trustworthiness-vector" c = None →
  dict_lookup "ear.veraison.annotated-evidence" c = Some (JDict ev) →
  dict_lookup "tdx" ev = Some (JDict t) →
  dict_lookup "quote" t = None →
  dict_lookup "uefi_event_logs" t = Some (JList logs) →
  forallb plain_entry logs = true →
  print_refuses status = None →
  Forall (λ log, is_start_app log = true →
                 json_dumps_indent_error (entry_details log) = None) logs →
  (verbose = true →
   Forall (λ log, is_cryptpilot log = true →
                  Forall (λ v, print_refuses v = None) (cryptpilot_values log)) logs) →
  extract_summary payload verbose st =
    (Ret (),
     add_out st
       ([ PrintF "verification status: " (FVal status);
          Print (nl +:+ "========== Start App logs ==========") ]
        ++ concat ((λ log, [Print (json_dumps_indent (entry_details log))])
                   <$> List.filter is_start_app logs)
        ++ (if existsb is_start_app logs then []
            else [Print "start_app log not found"])
        ++ (if verbose
            then [Print (nl +:+ "========== Cryptpilot logs ==========")]
                 ++ concat (cryptpilot_lines <$> List.filter is_cryptpilot logs)
                 ++ (if existsb is_cryptpilot logs then []
                     else [Print "cryptpilot log not found"])
            else []))).
Proof.
  intros Hsub Hcpu Hstatus Hvec Hev Htdx Hquote Hlogs Hplain Hs Hdumps Hprints.
  pose proof (for_each_selected start_app_step is_start_app _ _ logs
                start_app_step_plain Hplain Hdumps) as Hstart.
  unfold extract_summary, uefi_event_logs, py_contains2, print_value.
  unfold bind, lift, when, print, printf, emit, ret.
  repeat (progress (rewrite ?Hsub, ?Hcpu, ?Hstatus, ?Hvec, ?Hev, ?Htdx, ?Hquote,
                      ?Hlogs, ?Hstart, ?Hs; cbn)).
  destruct verbose; cbn.
  - pose proof (for_each_selected cryptpilot_step is_cryptpilot _ _ logs
                  cryptpilot_step_plain Hplain (Hprints eq_refl)) as Hcrypt.
    destruct (existsb is_start_app logs); cbn; rewrite Hcrypt; cbn;
      destruct (existsb is_cryptpilot logs); cbn; unfold add_out; cbn;
      rewrite <- ?app_assoc; cbn; by rewrite ?app_nil_r.
  - destruct (existsb is_start_app logs); cbn; unfold add_out; cbn;
      rewrite <- ?app_assoc; cbn; by rewrite ?app_nil_r.
Qed.

(** X17.  The summary of a payload whose annotated evidence has a quote
    and no event logs, and no vector, when the console takes the values it
    prints: after the status, the report data of the body of the quote, or
    [N/A] when the body has none.  The body itself is read without a
    guard: a quote without body raises the [KeyError] of [body], and a
    body that is not a dict an [AttributeError], after the status has been
    printed (lines 171-175). *)
Theorem summary_of_quote payload verbose st submods c status ev t q :
  py_getitem payload "submods" = Ok submods →
  py_getitem submods "cpu0" = Ok (JDict c) →
  dict_lookup "ear.status" c = Some status →
  dict_lookup "ear.trustworthiness-vector" c = None →
  dict_lookup "ear.veraison.annotated-evidence" c = Some (JDict ev) →
  dict_lookup "tdx" ev = Some (JDict t) →
  dict_lookup "quote" t = Some (JDict q) →
  dict_lookup "uefi_event_logs" t = None →
  print_refuses status = None →
  (∀ b, dict_lookup "body" q = Some (JDict b) →
        print_refuses (default (JStr "N/A") (dict_lookup "report_data" b)) = None) →
  extract_summary payload verbose st =
    match dict_lookup "body" q with
    | Some (JDict b) =>
        (Ret (),
         add_out st
           [ PrintF "verification status: " (FVal status);
             PrintF (nl +:+ "Report Data: ")
               (FVal (default (JStr "N/A") (dict_lookup "report_data" b))) ])
    | Some _ =>
        (Raise AttributeError,
         add_out st [PrintF "verification status: " (FVal status)])
    | None =>
        (Raise (KeyError "body"),
         add_out st [PrintF "verification status: " (FVal status)])
    end.
Proof.
  intros Hsub Hcpu Hstatus Hvec Hev Htdx Hquote Hlogs Hs Hr.
  unfold extract_summary, uefi_event_logs, py_contains2, print_value.
  unfold bind, lift, when, print, printf, emit, ret, add_out.
  repeat (progress (rewrite ?Hsub, ?Hcpu, ?Hstatus, ?Hvec, ?Hev, ?Htdx, ?Hquote,
                      ?Hlogs, ?Hs; cbn)).
  destruct (dict_lookup "body" q) as [body |]; cbn; [| done].
  destruct body as [| | | | | | b]; cbn; try done.
  specialize (Hr b eq_refl).
  destruct (dict_lookup "report_data" b); cbn in *; rewrite Hr; cbn;
    destruct verbose; cbn;
    repeat (progress (rewrite ?Htdx, ?Hlogs; cbn)); by rewrite <- ?app_assoc.
Qed.

(** X18.  When the console refuses the status, as it does for a string
    with a lone surrogate, the summary ends at the print of line 160; the
    handlers of lines 207-213 report the exception after the summary
    heading, with its traceback in verbose mode, and [decode_jwt] returns
    with the payload written. *)
Theorem unprintable_status_is_reported tok verbose st h p s header payload status e :
  split_dot tok = [h; p; s] →
  decode_segment h = Ok header →
  decode_segment p = Ok payload →
  dump_fails verbose header = false →
  dump_fails verbose payload = false →
  lookup_status payload = Ok status →
  print_refuses status = Some e →
  extract_summary payload verbose st = (Raise e, st)
  ∧ ∃ pre,
      decode_jwt tok verbose st =
        (Ret (),
         {| out := out st ++ pre
                   ++ Print "========== verification result =========="
                      :: summary_diagnostic e verbose;
            fs := <["jwt_payload.json" := json_dumps_indent payload]> (fs st);
            posts := posts st |}).
Proof.
  intros Hparts Hh Hp Hdh Hdp Hst Hpr.
  split; [by apply (extract_summary_unprintable_status _ _ _ status) |].
  apply (decode_jwt_summary_raised tok verbose st h p s header payload e);
    try done.
  intros st'. by apply (extract_summary_unprintable_status _ _ _ status).
Qed.

(** X19.  In verbose mode a dump that raises ends the decoding before the
    payload is written: that of the header after the header heading
    (line 133), that of the payload after the payload heading (line 144).
    The failure is reported with its traceback by the handler of line 215
    and no file is written. *)
Theorem verbose_dump_failure_ends_decoding tok st h p s header e :
  split_dot tok = [h; p; s] →
  decode_segment h = Ok header →
  (json_dumps_indent_error header = Some e →
   decode_jwt tok true st =
     (Ret (),
      add_out st [ Print "========== JWT Header ==========";
                   PrintF "✗ failed to decode JWT: " (FExn e); Traceback e ]))
  ∧ (∀ payload,
       json_dumps_indent_error header = None →
       decode_segment p = Ok payload →
       json_dumps_indent_error payload = Some e →
       decode_jwt tok true st =
         (Ret (),
          add_out st [ Print "========== JWT Header ==========";
                       Print (json_dumps_indent header); Print "";
                       Print "========== JWT Payload (full) ==========";
                       PrintF "✗ failed to decode JWT: " (FExn e); Traceback e ])).
Proof.
  intros Hparts Hh. split.
  - intros Hdh. by apply (decode_jwt_header_dump_error tok st h p s header e).
  - intros payload Hdh Hp Hdp.
    by apply (decode_jwt_payload_dump_error tok st h p s header payload e).
Qed.

End FurtherInterpreter.

(** ** Verbosity only adds lines *)

Section Verbosity.

Context `{!PyLib}.

Lemma prints_fixed_ret {A} (a : A) : prints_fixed (ret a).
Proof.
  exists (Ret a), []. split; [congruence |]. intros st. by rewrite add_out_nil.
Qed.

Lemma prints_fixed_lift {A} (r : result A) : prints_fixed (lift r).
Proof.
  destruct r as [a | e]; [exists (Ret a), [] | exists (Raise e), []];
    (split; [congruence |]); intros st; by rewrite add_out_nil.
Qed.

Lemma prints_fixed_emit l : prints_fixed (emit l).
Proof. exists (Ret ()), [l]. split; [congruence | done]. Qed.

Lemma prints_fixed_print_value prefix v : prints_fixed (print_value prefix v).
Proof.
  unfold print_value. destruct (print_refuses v);
    [apply prints_fixed_lift | apply prints_fixed_emit].
Qed.

Lemma prints_fixed_bind {A B} (m : M A) (k : A → M B) :
  prints_fixed m → (∀ a, prints_fixed (k a)) → prints_fixed (bind m k).
Proof.
  intros (o & ls & Ho & Hm) Hk. unfold bind. destruct o as [a | e | c].
  - destruct (Hk a) as (o' & ls' & Ho' & Hka).
    exists o', (ls ++ ls'). split; [done |]. intros st.
    by rewrite Hm, Hka, add_out_app.
  - exists (Raise e), ls. split; [congruence |]. intros st. by rewrite Hm.
  - by destruct (Ho c).
Qed.

Lemma prints_fixed_when b (m : M unit) : prints_fixed m → prints_fixed (when b m).
Proof. destruct b; simpl; [done | intros _; apply prints_fixed_ret]. Qed.

Lemma prints_fixed_for_each {A S} (items : list A) (body : A → S → M S) :
  (∀ x s, prints_fixed (body x s)) → ∀ s, prints_fixed (for_each items s body).
Proof.
  intros Hbody. induction items as [| x items IH]; intros s; simpl.
  - apply prints_fixed_ret.
  - apply prints_fixed_bind; [apply Hbody | apply IH].
Qed.

Ltac prints_fixed_step :=
  first
    [ apply prints_fixed_ret
    | apply prints_fixed_lift
    | apply prints_fixed_emit
    | apply prints_fixed_print_value
    | apply prints_fixed_when
    | apply prints_fixed_for_each
    | apply prints_fixed_bind
    | match goal with |- prints_fixed (if ?b then _ else _) => destruct b end
    | intro ].

Ltac prints_fixed_tac := unfold print, printf, print_exc; repeat prints_fixed_step.

Lemma start_app_step_prints_fixed log found : prints_fixed (start_app_step log found).
Proof. unfold start_app_step. prints_fixed_tac. Qed.

Lemma cryptpilot_step_prints_fixed log found : prints_fixed (cryptpilot_step log found).
Proof. unfold cryptpilot_step. prints_fixed_tac. Qed.

Lemma prints_more_same {A} (m : M A) : prints_fixed m → prints_more m m.
Proof.
  intros (o & ls & Ho & Hm). exists o, ls, o, [].
  rewrite app_nil_r. split; [done |]. split; [done |].
  split; [by intros e -> |]. by split.
Qed.

Lemma prints_more_bind {A B} (m : M A) (kq kv : A → M B) :
  prints_fixed m → (∀ a, prints_more (kq a) (kv a)) →
  prints_more (bind m kq) (bind m kv).
Proof.
  intros (o & ls & Ho & Hm) Hk. unfold bind. destruct o as [a | e | c].
  - destruct (Hk a) as (oq & lq & ov & lv & Hq & Hv & Hraise & Hoq & Hov).
    exists oq, (ls ++ lq), ov, lv.
    split; [intros st; by rewrite Hm, Hq, add_out_app |].
    split; [intros st; by rewrite Hm, Hv, add_out_app, app_assoc |].
    by split.
  - exists (Raise e), ls, (Raise e), []. rewrite app_nil_r.
    split; [intros st; by rewrite Hm |].
    split; [intros st; by rewrite Hm |].
    split; [by intros e' [= <-] |]. split; congruence.
  - by destruct (Ho c).
Qed.

Lemma prints_more_when b (mq mv : M unit) :
  prints_more mq mv → prints_more (when b mq) (when b mv).
Proof.
  destruct b; simpl; [done |]. intros _. apply prints_more_same, prints_fixed_ret.
Qed.

(** A quiet computation that returns at once is extended by any loud one
    that only prints. *)
Lemma prints_more_after_return {A} (a : A) (mv : M A) :
  prints_fixed mv → prints_more (ret a) mv.
Proof.
  intros (o & ls & Ho & Hm). exists (Ret a), [], o, ls.
  split; [intros st; by rewrite add_out_nil |]. split; [done |].
  split; [congruence |]. split; [congruence | done].
Qed.

Lemma extract_summary_prints_more payload :
  prints_more (extract_summary payload false) (extract_summary payload true).
Proof.
  pose proof start_app_step_prints_fixed. pose proof cryptpilot_step_prints_fixed.
  unfold extract_summary.
  repeat (apply prints_more_bind; [by prints_fixed_tac | intros]).
  apply prints_more_when.
  repeat (apply prints_more_bind; [by prints_fixed_tac | intros]).
  match goal with
  | |- prints_more _ ?loud => change (prints_more (ret ()) loud)
  end.
  apply prints_more_after_return. by prints_fixed_tac.
Qed.

(** The lines [decode_jwt] adds from a state are the same from every
    state, and the quiet ones are among the verbose ones when the dumps
    that only the verbose run makes do not raise. *)
Lemma decode_jwt_out_quiet_loud tok :
  verbose_dumps_ok tok = true →
  ∃ lq lv, (∀ st, out (decode_jwt tok false st).2 = out st ++ lq)
           ∧ (∀ st, out (decode_jwt tok true st).2 = out st ++ lv)
           ∧ lq `sublist_of` lv.
Proof.
  unfold verbose_dumps_ok, dump_fails, decode_jwt, try_except.
  destruct (split_dot tok) as [| h [| p [| s [| x parts]]]]; simpl;
    try (by intros _; eexists [_], [_]; split; [done |]; split; [done |]).
  unfold bind, lift, when, print, printf, print_exc, emit, open_write, try_except, ret,
    dumps_indent.
  destruct (decode_segment h) as [header | e]; simpl.
  2: { intros _. eexists [_; _], [_; _]. split; [intros st; by rewrite <- app_assoc |].
       split; [intros st; by rewrite <- app_assoc | done]. }
  destruct (json_dumps_indent_error header); simpl; [done |].
  destruct (decode_segment p) as [payload | e]; simpl.
  2: { intros _. eexists [_; _], [_; _; _; _; _].
       split; [intros st; by rewrite <- ?app_assoc |].
       split; [intros st; by rewrite <- ?app_assoc |].
       by apply (sublist_inserts_l [_; _; _]). }
  destruct (json_dumps_indent_error payload); simpl; [done |]. intros _.
  destruct (extract_summary_prints_more payload)
    as (oq & lq & ov & lv & Hq & Hv & Hraise & Hoq & Hov).
  exists ([Print "========== verification result =========="] ++ lq
          ++ match oq with Raise e => summary_diagnostic e false | _ => [] end),
    ([ Print "========== JWT Header =========="; Print (json_dumps_indent header);
       Print ""; Print "========== JWT Payload (full) ==========";
       Print (json_dumps_indent payload); Print "";
       Print "✓ JWT payload is saved to jwt_payload.json"; Print "" ]
     ++ [Print "========== verification result =========="] ++ (lq ++ lv)
     ++ match ov with Raise e => summary_diagnostic e true | _ => [] end).
  split; [| split].
  - intros st. rewrite Hq.
    destruct oq as [[] | e | c]; [| destruct e | by destruct (Hoq c)];
      unfold add_out; simpl; rewrite ?app_nil_r, <- ?app_assoc; simpl;
      by rewrite <- ?app_assoc.
  - intros st. rewrite Hv.
    destruct ov as [[] | e | c]; [| destruct e | by destruct (Hov c)];
      unfold add_out; simpl; rewrite ?app_nil_r, <- ?app_assoc; simpl;
      by rewrite <- ?app_assoc.
  - apply sublist_inserts_l, sublist_app; [done |].
    rewrite <- app_assoc. apply sublist_app; [done |].
    apply sublist_inserts_l.
    destruct oq as [[] | e | c]; [apply sublist_nil_l | | by destruct (Hoq c)].
    destruct (Hraise e eq_refl) as [-> _].
    destruct e; simpl; first [done | by apply sublist_skip, sublist_nil_l].
Qed.

(** X15.  Verbosity only adds lines, as long as the dumps that only the
    verbose run makes do not raise: what [decode_jwt] then prints in quiet
    mode is what it prints in verbose mode with lines left out, in the
    same order, and so is the transcript of a whole run. *)
Theorem quiet_transcript_within_verbose w files tok st :
  verbose_dumps_ok tok = true →
  (∀ rq text, posts (run w true files).2 = [rq] →
              service w rq = Response 200 text →
              verbose_dumps_ok text = true) →
  out (decode_jwt tok false st).2 `sublist_of` out (decode_jwt tok true st).2
  ∧ out (run w false files).2 `sublist_of` out (run w true files).2.
Proof.
  intros Htok Hrun.
  assert (Hdec : ∀ tok st, verbose_dumps_ok tok = true →
                           out (decode_jwt tok false st).2
                           `sublist_of` out (decode_jwt tok true st).2).
  { intros tok' st' Hok.
    destruct (decode_jwt_out_quiet_loud tok' Hok) as (lq & lv & -> & -> & Hsub).
    by apply sublist_app. }
  split; [by apply Hdec |].
  destruct (load_evidence files) as [body | e] eqn:Hload.
  2: { by rewrite !(run_load_failed _ _ _ _ Hload). }
  destruct (py_len body) as [n | e] eqn:Hlen.
  2: { by rewrite !(run_len_failed _ _ _ _ _ Hload Hlen). }
  destruct (service w (the_request w body)) as [sc text | e] eqn:Hpost.
  2: { by rewrite !(run_post_raises _ _ _ _ _ _ Hload Hlen Hpost). }
  destruct (Z.eqb_spec sc 200) as [-> | Hsc].
  - assert (Hok : verbose_dumps_ok text = true).
    { apply (Hrun (the_request w body)); [| done].
      by destruct (run_accepted w true files body n text Hload Hlen Hpost) as [ls ->]. }
    destruct (run_accepted_out w files body n text Hload Hlen Hpost) as [pre Hout].
    rewrite !Hout. apply sublist_app; [by apply Hdec | done].
  - by rewrite !(run_rejected _ _ _ _ _ _ _ Hload Hlen Hpost Hsc).
Qed.

End Verbosity.

(** ** Padding a segment that already decodes *)

Section Padding.

Import Base64 Base64Facts.

(** Pads after the data do not change a result the loop has reached. *)
Lemma a2b_loop_more_pads data k :
  ∀ quad_pos leftchar pads bin bs,
    a2b_loop data quad_pos leftchar pads bin = Ok bs →
    a2b_loop (data ++ repeat BASE64_PAD k) quad_pos leftchar pads bin = Ok bs.
Proof.
  induction data as [| this_ch data IH]; intros q lc p bin bs.
  - cbn [a2b_loop app]. destruct (Z.eqb_spec q 0) as [-> | Hq]; [| done].
    intros [= <-]. apply a2b_loop_pads_aligned.
  - cbn [a2b_loop app].
    repeat match goal with
           | |- context [if ?c then _ else _] => destruct c
           end; auto.
Qed.

(** X16.  The padding of lines 127 and 138 does no harm: a segment that
    Python's decoder accepts as it is, for instance one that carries its
    own padding, decodes to the same bytes after the script has padded
    it. *)
Theorem padding_keeps_a_decoded_segment seg bs :
  urlsafe_b64decode seg = Ok bs →
  urlsafe_b64decode (add_padding seg) = Ok bs.
Proof.
  unfold urlsafe_b64decode, bytes_from_decode_data, add_padding.
  rewrite codes_app, codes_str_repeat, forallb_app.
  destruct (forallb (λ c, c <? 128) (codes seg)); [| done].
  set (k := Z.to_nat (pad_count (Z.of_nat (String.length seg)))).
  assert (Hpads : forallb (λ c, c <? 128) (repeat BASE64_PAD k) = true)
    by (induction k as [| k IH]; [done | by cbn]).
  rewrite Hpads. cbn [andb rbind]. rewrite fmap_app.
  assert (Htr : urlsafe_decode_translation <$> repeat BASE64_PAD k = repeat BASE64_PAD k).
  { induction k as [| k IH]; [done |]. cbn [repeat]. by rewrite fmap_cons, IH. }
  rewrite Htr. apply a2b_loop_more_pads.
Qed.

End Padding.


(** ** The further properties on concrete runs *)

Section FurtherExamples.

#[local] Existing Instance Extra.lib.

Lemma network_failure_is_fatal_witness :
  posts (run Extra.unreachable false Demo.empty_evidence_dir).2
    = [the_request Extra.unreachable (JStr "")]
  ∧ service Extra.unreachable (the_request Extra.unreachable (JStr ""))
    = PostRaises RequestException
  ∧ exit_status (run Extra.unreachable false Demo.empty_evidence_dir).1 = 1
  ∧ fs (run Extra.unreachable false Demo.empty_evidence_dir).2 = Demo.empty_evidence_dir
  ∧ ∃ pre, out (run Extra.unreachable false Demo.empty_evidence_dir).2 =
           pre ++ [ PrintF "✗ request error: " (FExn RequestException);
                    Traceback RequestException ].
Proof.
  split; [vm_compute; reflexivity |]. split; [reflexivity |].
  apply (network_failure_is_fatal Extra.unreachable false Demo.empty_evidence_dir
           (the_request Extra.unreachable (JStr "")) RequestException);
    [vm_compute; reflexivity | reflexivity].
Defined.

Lemma evidence_without_length_crashes_witness :
  Extra.number_evidence_dir !! "evidence.json" = Some Extra.number_evidence_text
  ∧ json_loads Extra.number_evidence_text = Ok (JDict [("evidence", JInt 5)])
  ∧ dict_lookup "evidence" [("evidence", JInt 5)] = Some (JInt 5)
  ∧ run (Demo.accepting "e30.e30.sig") false Extra.number_evidence_dir =
      (Raise TypeError,
       {| out := [Print "read evidence file: evidence.json..."];
          fs := Extra.number_evidence_dir; posts := [] |})
  ∧ exit_status (run (Demo.accepting "e30.e30.sig") false Extra.number_evidence_dir).1 = 1.
Proof.
  split; [vm_compute; reflexivity |]. split; [vm_compute; reflexivity |].
  split; [reflexivity |].
  apply (evidence_without_length_crashes (Demo.accepting "e30.e30.sig") false
           Extra.number_evidence_dir Extra.number_evidence_text
           [("evidence", JInt 5)] (JInt 5));
    [vm_compute; reflexivity | vm_compute; reflexivity | reflexivity | exact I].
Defined.

Lemma unreadable_evidence_is_fatal_witness :
  (Extra.broken_dir !! "evidence.json" = Some "not json"
   ∧ json_loads "not json" = Err JSONDecodeError
   ∧ run (Demo.accepting "e30.e30.sig") false Extra.broken_dir =
       (Exit 1,
        {| out := [ Print "read evidence file: evidence.json...";
                    PrintF "✗ failed to load evidence: " (FExn JSONDecodeError);
                    Traceback JSONDecodeError ];
           fs := Extra.broken_dir; posts := [] |}))
  ∧ (Extra.list_dir !! "evidence.json" = Some "[1,2]"
     ∧ json_loads "[1,2]" = Ok (JList [JInt 1; JInt 2])
     ∧ isinstance_dict (JList [JInt 1; JInt 2]) = false
     ∧ run (Demo.accepting "e30.e30.sig") false Extra.list_dir =
         (Exit 1,
          {| out := [ Print "read evidence file: evidence.json...";
                      PrintF "✗ failed to load evidence: " (FExn TypeError);
                      Traceback TypeError ];
             fs := Extra.list_dir; posts := [] |})).
Proof.
  split.
  - split; [vm_compute; reflexivity |]. split; [reflexivity |].
    assert (Hfile : Extra.broken_dir !! "evidence.json" = Some "not json")
      by (vm_compute; reflexivity).
    exact (unreadable_evidence_is_fatal (Demo.accepting "e30.e30.sig") false
             Extra.broken_dir "not json" Hfile (or_introl eq_refl)).
  - split; [vm_compute; reflexivity |]. split; [reflexivity |]. split; [reflexivity |].
    assert (Hfile : Extra.list_dir !! "evidence.json" = Some "[1,2]")
      by (vm_compute; reflexivity).
    exact (unreadable_evidence_is_fatal (Demo.accepting "e30.e30.sig") false
             Extra.list_dir "[1,2]" Hfile
             (or_intror (ex_intro _ (JList [JInt 1; JInt 2]) (conj eq_refl eq_refl)))).
Defined.

Lemma request_carries_the_loaded_evidence_witness :
  posts (run Demo.rejecting false Demo.empty_evidence_dir).2
    = [the_request Demo.rejecting (JStr "")]
  ∧ ∃ content data body,
      Demo.empty_evidence_dir !! "evidence.json" = Some content
      ∧ json_loads content = Ok data
      ∧ py_getitem data "evidence" = Ok body
      ∧ url (the_request Demo.rejecting (JStr ""))
        = "http://localhost:8081/api/attestation-service/attestation"
      ∧ verify (the_request Demo.rejecting (JStr "")) = false
      ∧ json_body (the_request Demo.rejecting (JStr "")) =
          JDict [ ("verification_requests",
                   JList [ JDict [ ("tee", JStr "tdx"); ("evidence", body) ] ]);
                  ("policy_ids",
                   JList [ JStr (default "tapp" (environ Demo.rejecting !! "POLICY_ID")) ]) ].
Proof.
  split; [vm_compute; reflexivity |].
  apply (request_carries_the_loaded_evidence Demo.rejecting false Demo.empty_evidence_dir
           (the_request Demo.rejecting (JStr ""))).
  vm_compute; reflexivity.
Defined.


Lemma rerun_leaves_the_same_files_witness :
  (false = true → true = true)
  ∧ fs (run (Demo.accepting "e30.e30.sig") true
          (fs (run (Demo.accepting "e30.e30.sig") false Demo.empty_evidence_dir).2)).2
    = fs (run (Demo.accepting "e30.e30.sig") false Demo.empty_evidence_dir).2.
Proof.
  split; [reflexivity |].
  apply (rerun_leaves_the_same_files (Demo.accepting "e30.e30.sig") false true
           Demo.empty_evidence_dir).
  reflexivity.
Defined.

Lemma other_files_are_untouched_witness :
  "evidence.json" ≠ "jwt_token.txt"
  ∧ "evidence.json" ≠ "jwt_payload.json"
  ∧ fs (run (Demo.accepting "e30.e30.sig") false Demo.empty_evidence_dir).2
      !! "evidence.json"
    = Demo.empty_evidence_dir !! "evidence.json".
Proof.
  split; [discriminate |]. split; [discriminate |].
  apply (other_files_are_untouched (Demo.accepting "e30.e30.sig") false
           Demo.empty_evidence_dir "evidence.json"); discriminate.
Defined.

Lemma payload_failure_ends_decoding_witness :
  split_dot "e30.A.sig" = ["e30"; "A"; "sig"]
  ∧ decode_segment "e30" = Ok (JDict [])
  ∧ dump_fails true (JDict []) = false
  ∧ decode_segment "A" = Err BinasciiError
  ∧ decode_jwt "e30.A.sig" true st0 =
      (Ret (),
       add_out st0
         ((if true
           then [ Print "========== JWT Header ==========";
                  Print (json_dumps_indent (JDict [])); Print "" ]
           else [])
          ++ [PrintF "✗ failed to decode JWT: " (FExn BinasciiError);
              Traceback BinasciiError]))
  ∧ fs (decode_jwt "e30.A.sig" true st0).2 = fs st0.
Proof.
  split; [reflexivity |]. split; [vm_compute; reflexivity |].
  split; [reflexivity |]. split; [vm_compute; reflexivity |].
  apply (payload_failure_ends_decoding "e30.A.sig" true st0 "e30" "A" "sig"
           (JDict []) BinasciiError);
    [reflexivity | vm_compute; reflexivity | reflexivity | vm_compute; reflexivity].
Defined.

Lemma summary_of_trust_vector_witness :
  py_getitem Extra.vector_payload "submods"
    = Ok (JDict [ ("cpu0", JDict Extra.vector_cpu0) ])
  ∧ py_getitem (JDict [ ("cpu0", JDict Extra.vector_cpu0) ]) "cpu0"
    = Ok (JDict Extra.vector_cpu0)
  ∧ dict_lookup "ear.status" Extra.vector_cpu0 = Some (JStr "affirming")
  ∧ dict_lookup "ear.trustworthiness-vector" Extra.vector_cpu0
    = Some (JDict Extra.vector)
  ∧ dict_lookup "ear.veraison.annotated-evidence" Extra.vector_cpu0 = None
  ∧ Forall (λ v, print_refuses v = None)
      [ JStr "affirming";
        default (JStr "N/A") (dict_lookup "configuration" Extra.vector);
        default (JStr "N/A") (dict_lookup "executables" Extra.vector);
        default (JStr "N/A") (dict_lookup "file-system" Extra.vector) ]
  ∧ extract_summary Extra.vector_payload false st0 =
      (Ret (),
       add_out st0
         [ PrintF "verification status: " (FVal (JStr "affirming"));
           Print (nl +:+ "trustworthiness vector:");
           PrintF "  - configuration: " (FVal (JInt 2));
           PrintF "  - executables: " (FVal (JInt 3));
           PrintF "  - file-system: " (FVal (JStr "N/A")) ]).
Proof.
  repeat (split; [reflexivity |]).
  split; [repeat constructor |].
  apply (summary_of_trust_vector Extra.vector_payload false st0
           (JDict [ ("cpu0", JDict Extra.vector_cpu0) ]) Extra.vector_cpu0
           (JStr "affirming") Extra.vector);
    first [reflexivity | repeat constructor].
Defined.

Lemma summary_of_event_logs_witness :
  py_getitem Extra.logs_payload "submods"
    = Ok (JDict [ ("cpu0", JDict Extra.logs_cpu0) ])
  ∧ py_getitem (JDict [ ("cpu0", JDict Extra.logs_cpu0) ]) "cpu0"
    = Ok (JDict Extra.logs_cpu0)
  ∧ dict_lookup "ear.status" Extra.logs_cpu0 = Some (JStr "affirming")
  ∧ dict_lookup "ear.trustworthiness-vector" Extra.logs_cpu0 = None
  ∧ dict_lookup "ear.veraison.annotated-evidence" Extra.logs_cpu0
    = Some (JDict Extra.logs_evidence)
  ∧ dict_lookup "tdx" Extra.logs_evidence = Some (JDict Extra.logs_tdx)
  ∧ dict_lookup "quote" Extra.logs_tdx = None
  ∧ dict_lookup "uefi_event_logs" Extra.logs_tdx = Some (JList Extra.logs)
  ∧ forallb plain_entry Extra.logs = true
  ∧ print_refuses (JStr "affirming") = None
  ∧ Forall (λ log, is_start_app log = true →
                   json_dumps_indent_error (entry_details log) = None) Extra.logs
  ∧ (true = true →
     Forall (λ log, is_cryptpilot log = true →
                    Forall (λ v, print_refuses v = None) (cryptpilot_values log))
       Extra.logs)
  ∧ extract_summary Extra.logs_payload true st0 =
      (Ret (),
       add_out st0
         [ PrintF "verification status: " (FVal (JStr "affirming"));
           Print (nl +:+ "========== Start App logs ==========");
           Print (json_dumps_indent (entry_details Extra.start_entry));
           Print (nl +:+ "========== Cryptpilot logs ==========");
           PrintF "Operation: " (FVal (JStr "fde"));
           PrintF "Content: " (FVal (JStr "N/A"));
           Print "" ]).
Proof.
  assert (Hdumps : Forall (λ log, is_start_app log = true →
                                  json_dumps_indent_error (entry_details log) = None)
                     Extra.logs)
    by (repeat constructor).
  assert (Hprints : true = true →
                    Forall (λ log, is_cryptpilot log = true →
                                   Forall (λ v, print_refuses v = None)
                                     (cryptpilot_values log))
                      Extra.logs)
    by (intros _; repeat (constructor; [intros _; repeat constructor |]); constructor).
  repeat (split; [reflexivity |]).
  split; [exact Hdumps |]. split; [exact Hprints |].
  apply (summary_of_event_logs Extra.logs_payload true st0
           (JDict [ ("cpu0", JDict Extra.logs_cpu0) ]) Extra.logs_cpu0
           (JStr "affirming") Extra.logs_evidence Extra.logs_tdx Extra.logs);
    first [reflexivity | exact Hdumps | exact Hprints].
Defined.

Lemma summary_of_quote_witness :
  py_getitem Extra.quote_payload "submods"
    = Ok (JDict [ ("cpu0", JDict Extra.quote_cpu0) ])
  ∧ py_getitem (JDict [ ("cpu0", JDict Extra.quote_cpu0) ]) "cpu0"
    = Ok (JDict Extra.quote_cpu0)
  ∧ dict_lookup "ear.status" Extra.quote_cpu0 = Some (JStr "affirming")
  ∧ dict_lookup "ear.trustworthiness-vector" Extra.quote_cpu0 = None
  ∧ dict_lookup "ear.veraison.annotated-evidence" Extra.quote_cpu0
    = Some (JDict Extra.quote_evidence)
  ∧ dict_lookup "tdx" Extra.quote_evidence = Some (JDict Extra.quote_tdx)
  ∧ dict_lookup "quote" Extra.quote_tdx = Some (JDict [ ("header", JInt 4) ])
  ∧ dict_lookup "uefi_event_logs" Extra.quote_tdx = None
  ∧ print_refuses (JStr "affirming") = None
  ∧ extract_summary Extra.quote_payload false st0 =
      (Raise (KeyError "body"),
       add_out st0 [PrintF "verification status: " (FVal (JStr "affirming"))]).
Proof.
  repeat (split; [reflexivity |]).
  apply (summary_of_quote Extra.quote_payload false st0
           (JDict [ ("cpu0", JDict Extra.quote_cpu0) ]) Extra.quote_cpu0
           (JStr "affirming") Extra.quote_evidence Extra.quote_tdx
           [ ("header", JInt 4) ]); first [reflexivity | intros b [=]].
Defined.

Lemma quiet_transcript_within_verbose_witness :
  verbose_dumps_ok "e30.e30.sig" = true
  ∧ out (decode_jwt "e30.e30.sig" false st0).2
    `sublist_of` out (decode_jwt "e30.e30.sig" true st0).2
  ∧ out (run (Demo.accepting "e30.e30.sig") false Demo.empty_evidence_dir).2
    `sublist_of` out (run (Demo.accepting "e30.e30.sig") true Demo.empty_evidence_dir).2.
Proof.
  split; [vm_compute; reflexivity |].
  apply (quiet_transcript_within_verbose (Demo.accepting "e30.e30.sig")
           Demo.empty_evidence_dir "e30.e30.sig" st0).
  - vm_compute; reflexivity.
  - intros rq text _ [= <-]. vm_compute; reflexivity.
Defined.

Lemma padding_keeps_a_decoded_segment_witness :
  Base64.urlsafe_b64decode "e30=" = Ok (Demo.ascii_bytes "{}")
  ∧ Base64.urlsafe_b64decode (add_padding "e30=") = Ok (Demo.ascii_bytes "{}").
Proof.
  split; [vm_compute; reflexivity |].
  apply (padding_keeps_a_decoded_segment "e30=" (Demo.ascii_bytes "{}")).
  vm_compute; reflexivity.
Defined.

End FurtherExamples.

(** ** The properties on values the library gives up on *)

Section SurrogateExamples.

#[local] Existing Instance Surrogate.lib.

Lemma unprintable_status_is_reported_witness :
  split_dot Surrogate.token
    = ["e30"; Base64.base64url (Base64.codes Surrogate.payload_text); "sig"]
  ∧ decode_segment "e30" = Ok (JDict [])
  ∧ decode_segment (Base64.base64url (Base64.codes Surrogate.payload_text))
    = Ok Surrogate.payload
  ∧ dump_fails true (JDict []) = false
  ∧ dump_fails true Surrogate.payload = false
  ∧ lookup_status Surrogate.payload = Ok (JStr Surrogate.lone_surrogate)
  ∧ print_refuses (JStr Surrogate.lone_surrogate) = Some UnicodeEncodeError
  ∧ extract_summary Surrogate.payload true st0 = (Raise UnicodeEncodeError, st0)
  ∧ ∃ pre,
      decode_jwt Surrogate.token true st0 =
        (Ret (),
         {| out := out st0 ++ pre
                   ++ Print "========== verification result =========="
                      :: summary_diagnostic UnicodeEncodeError true;
            fs := <["jwt_payload.json" := json_dumps_indent Surrogate.payload]> (fs st0);
            posts := posts st0 |}).
Proof.
  split; [vm_compute; reflexivity |]. split; [vm_compute; reflexivity |].
  split; [vm_compute; reflexivity |]. split; [reflexivity |]. split; [reflexivity |].
  split; [reflexivity |]. split; [reflexivity |].
  apply (unprintable_status_is_reported Surrogate.token true st0
           "e30" (Base64.base64url (Base64.codes Surrogate.payload_text)) "sig"
           (JDict []) Surrogate.payload (JStr Surrogate.lone_surrogate)
           UnicodeEncodeError);
    [vm_compute; reflexivity | vm_compute; reflexivity | vm_compute; reflexivity
    | reflexivity | reflexivity | reflexivity | reflexivity].
Defined.

End SurrogateExamples.

(** ** The claims on a deeply nested token *)

Section DeepExamples.

#[local] Existing Instance Deep.lib.

(** The segment of the deep value decodes to it, its dump for the console
    raises, and one array more is too deep for the parser. *)
Example deep_segment_decodes :
  String.length Deep.deep_payload_token = 2658%nat
  ∧ decode_segment Deep.deep_segment = Ok Deep.deep_value
  ∧ json_dumps_indent_error Deep.deep_value = Some RecursionError
  ∧ json_dumps_indent_error (Deep.nested 991 Deep.one_and_a_half) = None
  ∧ json_loads (Deep.nested_text 993) = Err RecursionError.
Proof. vm_compute. repeat split; reflexivity. Qed.

(** C8 fails as stated.  The payload segment [e30] decodes to the empty
    object, which has no [submods], but the header [AAAAA] is not base64
    and the payload file is not written.  And the deep payload has no
    [submods] either and its header [e30] decodes, but in verbose mode
    its dump raises after the payload heading: the failure is reported and
    the payload file is not written. *)
Lemma missing_status_is_not_always_recovered :
  (split_dot "AAAAA.e30.sig" = ["AAAAA"; "e30"; "sig"]
   ∧ decode_segment "e30" = Ok (JDict [])
   ∧ lookup_status (JDict []) = Err (KeyError "submods")
   ∧ decode_segment "AAAAA" = Err BinasciiError
   ∧ fs (decode_jwt "AAAAA.e30.sig" false st0).2 !! "jwt_payload.json" = None)
  ∧ (split_dot Deep.deep_payload_token = ["e30"; Deep.deep_segment; "sig"]
     ∧ decode_segment "e30" = Ok (JDict [])
     ∧ decode_segment Deep.deep_segment = Ok Deep.deep_value
     ∧ lookup_status Deep.deep_value = Err TypeError
     ∧ decode_jwt Deep.deep_payload_token true st0 =
         (Ret (),
          add_out st0 [ Print "========== JWT Header ==========";
                        Print (json_dumps_indent (JDict [])); Print "";
                        Print "========== JWT Payload (full) ==========";
                        PrintF "✗ failed to decode JWT: " (FExn RecursionError);
                        Traceback RecursionError ])
     ∧ fs (decode_jwt Deep.deep_payload_token true st0).2 !! "jwt_payload.json" = None).
Proof.
  split.
  - vm_compute. repeat split; reflexivity.
  - assert (Hparts : split_dot Deep.deep_payload_token = ["e30"; Deep.deep_segment; "sig"])
      by (vm_compute; reflexivity).
    assert (Hh : decode_segment "e30" = Ok (JDict [])) by (vm_compute; reflexivity).
    assert (Hp : decode_segment Deep.deep_segment = Ok Deep.deep_value)
      by (vm_compute; reflexivity).
    assert (Hrun := decode_jwt_payload_dump_error Deep.deep_payload_token st0
                      "e30" Deep.deep_segment "sig" (JDict []) Deep.deep_value
                      RecursionError Hparts Hh eq_refl Hp
                      ltac:(vm_compute; reflexivity)).
    split; [done |]. split; [done |]. split; [done |].
    split; [vm_compute; reflexivity |]. split; [exact Hrun |].
    by rewrite Hrun.
Qed.

(** C10 fails as stated: on the token whose payload is the deep value the
    quiet run writes [jwt_payload.json] and the verbose run, whose dump of
    the payload raises, does not. *)
Lemma verbose_run_leaves_payload_unwritten :
  service (Demo.accepting Deep.deep_payload_token)
    (the_request (Demo.accepting Deep.deep_payload_token) (JStr ""))
    = Response 200 Deep.deep_payload_token
  ∧ fs (run (Demo.accepting Deep.deep_payload_token) false Demo.empty_evidence_dir).2
      !! "jwt_payload.json" = Some (json_dumps_indent Deep.deep_value)
  ∧ fs (run (Demo.accepting Deep.deep_payload_token) true Demo.empty_evidence_dir).2
      !! "jwt_payload.json" = None
  ∧ fs (run (Demo.accepting Deep.deep_payload_token) true Demo.empty_evidence_dir).2
    ≠ fs (run (Demo.accepting Deep.deep_payload_token) false Demo.empty_evidence_dir).2
  ∧ In (PrintF "✗ failed to decode JWT: " (FExn RecursionError))
       (out (run (Demo.accepting Deep.deep_payload_token) true
               Demo.empty_evidence_dir).2).
Proof.
  assert (Hq : fs (run (Demo.accepting Deep.deep_payload_token) false
                     Demo.empty_evidence_dir).2
               !! "jwt_payload.json" = Some (json_dumps_indent Deep.deep_value))
    by (vm_compute; reflexivity).
  assert (Hv : fs (run (Demo.accepting Deep.deep_payload_token) true
                     Demo.empty_evidence_dir).2
               !! "jwt_payload.json" = None)
    by (vm_compute; reflexivity).
  split; [reflexivity |]. split; [exact Hq |]. split; [exact Hv |].
  split; [intros Heq; rewrite Heq, Hq in Hv; discriminate Hv |].
  vm_compute. tauto.
Qed.

Lemma verbose_dump_failure_ends_decoding_witness :
  split_dot Deep.deep_header_token = [Deep.deep_segment; "e30"; "sig"]
  ∧ decode_segment Deep.deep_segment = Ok Deep.deep_value
  ∧ json_dumps_indent_error Deep.deep_value = Some RecursionError
  ∧ decode_jwt Deep.deep_header_token true st0 =
      (Ret (),
       add_out st0 [ Print "========== JWT Header ==========";
                     PrintF "✗ failed to decode JWT: " (FExn RecursionError);
                     Traceback RecursionError ]).
Proof.
  assert (Hparts : split_dot Deep.deep_header_token = [Deep.deep_segment; "e30"; "sig"])
    by (vm_compute; reflexivity).
  assert (Hh : decode_segment Deep.deep_segment = Ok Deep.deep_value)
    by (vm_compute; reflexivity).
  split; [exact Hparts |]. split; [exact Hh |]. split; [vm_compute; reflexivity |].
  apply (proj1 (verbose_dump_failure_ends_decoding Deep.deep_header_token st0
                  Deep.deep_segment "e30" "sig" Deep.deep_value RecursionError
                  Hparts Hh)).
  vm_compute; reflexivity.
Defined.

End DeepExamples.
